(** * The DOM property registry and the unknown-property hook

    A shallow embedding of two modules of the DOM renderer:

    - [DOMProperty] (src/renderers/dom/shared/DOMProperty.js): the table of
      reserved props, the attribute registry [properties] and
      [isReservedProp];
    - [ReactDOMUnknownPropertyHook]: [validateProperty],
      [warnUnknownProperties], [validateProperties] and the two Stack hooks,
      as they run in a development build ([__DEV__] true).

    Strings are the JavaScript strings whose code units are all below
    256, one character per code unit.

    JavaScript objects used as dictionaries are finite maps from strings
    ([gmap string V]) holding their own properties.  The objects the two
    modules allocate live in a [Heap] that every operation threads, next to
    the console the warnings are written to; an operation either completes
    normally or throws, and what it did to the heap before throwing stays
    done. *)

From Stdlib Require Import ZArith String Ascii List Bool Lia.
From stdpp Require Import base option list gmap strings pretty fin_maps.

Local Open Scope string_scope.
Local Open Scope Z_scope.

(** ** JavaScript preliminaries *)

Module JS.

(** Property values of a property bag.  Numbers are kept abstractly: an
    integral number or NaN; only their truthiness is ever observed. *)
Inductive Value : Type :=
| Undefined
| Null
| Boolean (b : bool)
| Number (z : Z)
| NaN
| Str (s : string)
| Object.

(** ToBoolean, the test behind [if (v)] and [a || v]. *)
Definition ToBoolean (v : Value) : bool :=
  match v with
  | Undefined | Null | NaN => false
  | Boolean b => b
  | Number z => negb (z =? 0)
  | Str s => negb (String.eqb s "")
  | Object => true
  end.

(** Strings.  A JavaScript string is a sequence of 16-bit code units.
    [string] stands for the strings all of whose code units are below 256
    (Basic Latin and Latin-1 Supplement): the character [ascii_of_nat n]
    is the code unit [n] itself, not a byte of an encoding.  Names with a
    code unit from 256 on are outside the embedding. *)

(** The lower-case mapping of Unicode on the code units below 256: the
    letters A-Z (65-90) and the Latin-1 capitals U+00C0-U+00DE (192-222)
    other than the multiplication sign U+00D7 (215) move up by 32; every
    other code unit of the range, U+00B5, U+00DF and U+00FF included, is
    its own lower case.  No mapping of the range leaves it, lengthens the
    string or depends on context. *)
Definition lowerChar (c : ascii) : ascii :=
  let n := nat_of_ascii c in
  if (((65 <=? n) && (n <=? 90))
      || ((192 <=? n) && (n <=? 222) && negb (n =? 215)))%nat
  then ascii_of_nat (n + 32) else c.

(** [String.prototype.toLowerCase]. *)

Fixpoint toLowerCase (s : string) : string :=
  match s with
  | EmptyString => EmptyString
  | String c s' => String (lowerChar c) (toLowerCase s')
  end.

(** [String.prototype.indexOf]: the first position at which [needle]
    occurs in [s], or -1. *)
Fixpoint indexOfFrom (i : Z) (needle s : string) : Z :=
  if String.prefix needle s then i
  else match s with
       | EmptyString => -1
       | String _ s' => indexOfFrom (i + 1) needle s'
       end.

Definition indexOf (s needle : string) : Z := indexOfFrom 0 needle s.

(** [Array.prototype.join]. *)
Definition join (sep : string) (l : list string) : string :=
  String.concat sep l.

(** The own properties of an ordinary object created by an object
    literal.  Its prototype is [Object.prototype]. *)
Abbreviation Obj V := (gmap string V).

Inductive Error : Type :=
| TypeError (message : string).

Inductive Completion (A : Type) : Type :=
| Normal (a : A)
| Throw (e : Error).
Arguments Normal {A} a.
Arguments Throw {A} e.

(** [o.hasOwnProperty(name)].  The member [hasOwnProperty] is looked up
    on [o] first: an own property of that name shadows the method of
    [Object.prototype], and since the objects below only ever store
    booleans and strings, calling it is a TypeError. *)
Definition hasOwnProperty {V} (o : Obj V) (name : string) : Completion bool :=
  match o !! "hasOwnProperty" with
  | Some _ => Throw (TypeError "hasOwnProperty is not a function")
  | None => Normal (bool_decide (is_Some (o !! name)))
  end.

(** [o[name] = v] for a primitive [v] (a boolean or a string).  The name
    [__proto__] reaches the accessor inherited from [Object.prototype],
    whose setter ignores primitives: no own property is created. *)
Definition assign {V} (o : Obj V) (name : string) (v : V) : Obj V :=
  if String.eqb name "__proto__" then o else <[name := v]> o.

(** A property bag as [for (key in props)] sees it: the enumerable
    properties in enumeration order, each name once. *)
Definition Bag : Type := list (string * Value).

Fixpoint get (props : Bag) (name : string) : Value :=
  match props with
  | [] => Undefined
  | (k, v) :: rest => if String.eqb k name then v else get rest name
  end.

Definition keys (props : Bag) : list string := map fst props.

End JS.

Import JS.

(** ** Attribute descriptors *)

(** The one mutation method of the registry, that of [value]. *)
Inductive MutationMethod : Type :=
| valueMutationMethod.

(** An entry of [properties].  A flag the object literal leaves out is
    [undefined], which every reader treats as false. *)
Record AttributeDescriptor : Type := {
  attributeName : string;
  attributeNamespace : option string;
  mutationMethod : option MutationMethod;
  mustUseProperty : bool;
  hasBooleanValue : bool;
  hasNumericValue : bool;
  hasPositiveNumericValue : bool;
  hasOverloadedBooleanValue : bool
}.

Inductive Flag : Type :=
| MustUseProperty
| HasBooleanValue
| HasNumericValue
| HasPositiveNumericValue
| HasOverloadedBooleanValue.

Definition Flag_eqb (a b : Flag) : bool :=
  match a, b with
  | MustUseProperty, MustUseProperty
  | HasBooleanValue, HasBooleanValue
  | HasNumericValue, HasNumericValue
  | HasPositiveNumericValue, HasPositiveNumericValue
  | HasOverloadedBooleanValue, HasOverloadedBooleanValue => true
  | _, _ => false
  end.

Definition sets (f : Flag) (fs : list Flag) : bool := existsb (Flag_eqb f) fs.

Definition entry (name : string) (ns : option string)
           (mm : option MutationMethod) (fs : list Flag) : AttributeDescriptor :=
  {| attributeName := name;
     attributeNamespace := ns;
     mutationMethod := mm;
     mustUseProperty := sets MustUseProperty fs;
     hasBooleanValue := sets HasBooleanValue fs;
     hasNumericValue := sets HasNumericValue fs;
     hasPositiveNumericValue := sets HasPositiveNumericValue fs;
     hasOverloadedBooleanValue := sets HasOverloadedBooleanValue fs |}.

Definition attr (name : string) (fs : list Flag) : AttributeDescriptor :=
  entry name None None fs.

Definition xlink : option string := Some "http://www.w3.org/1999/xlink".
Definition xml : option string := Some "http://www.w3.org/XML/1998/namespace".

(** ** The heap and the effects of an operation *)

Module Runtime.

(** One call of [warning(condition, format, ...args)] that reached the
    console. *)
Record Warning : Type := {
  format : string;
  args : list string
}.

(** The objects of the two modules, and the console.  [RESERVED_PROPS]
    and [properties] belong to DOMProperty, [warnedProperties] and
    [possibleStandardNames] to the hook. *)
Record Heap : Type := {
  reservedProps : Obj bool;
  registry : list (string * AttributeDescriptor);
  warnedProperties : Obj bool;
  possibleStandardNames : Obj string;
  console : list Warning
}.

Definition setWarnedProperties (o : Obj bool) (h : Heap) : Heap :=
  {| reservedProps := reservedProps h;
     registry := registry h;
     warnedProperties := o;
     possibleStandardNames := possibleStandardNames h;
     console := console h |}.

Definition log (w : Warning) (h : Heap) : Heap :=
  {| reservedProps := reservedProps h;
     registry := registry h;
     warnedProperties := warnedProperties h;
     possibleStandardNames := possibleStandardNames h;
     console := console h ++ [w] |}.

(** A computation reads and writes the heap and completes normally or
    abruptly; the heap at the point of a throw is kept. *)
Definition M (A : Type) : Type := Heap -> Completion A * Heap.

Definition ret {A} (a : A) : M A := fun h => (Normal a, h).

Definition bind {A B} (m : M A) (k : A -> M B) : M B :=
  fun h =>
    match m h with
    | (Normal a, h') => k a h'
    | (Throw e, h') => (Throw e, h')
    end.

Definition lift {A} (c : Completion A) : M A := fun h => (c, h).

Definition gets {A} (f : Heap -> A) : M A := fun h => (Normal (f h), h).

Definition modify (f : Heap -> Heap) : M unit := fun h => (Normal tt, f h).

(** [warning] of fbjs: nothing when the condition holds, else one line
    on the console. *)
Definition warning (condition : bool) (fmt : string) (a : list string) : M unit :=
  if condition then ret tt
  else modify (log {| format := fmt; args := a |}).

End Runtime.

Import Runtime.

Declare Scope js_scope.
Delimit Scope js_scope with js.
Notation "x <- m ;; k" := (bind m (fun x => k))
  (at level 100, m at next level, right associativity) : js_scope.
Notation "m ;;; k" := (bind m (fun _ => k))
  (at level 100, right associativity) : js_scope.
Local Open Scope js_scope.

(** ** DOMProperty *)

Module DOMProperty.

Definition RESERVED_PROPS : Obj bool :=
  list_to_map
    [ ("children", true);
      ("dangerouslySetInnerHTML", true);
      ("key", true);
      ("ref", true);
      ("autoFocus", true);
      ("defaultValue", true);
      ("defaultChecked", true);
      ("innerHTML", true);
      ("suppressContentEditableWarning", true);
      ("onFocusIn", true);
      ("onFocusOut", true) ].

(** [DOMProperty.properties], in the order of the object literal (the
    order in which [for ... in] enumerates it). *)
Definition properties : list (string * AttributeDescriptor) :=
  [
    ("acceptCharset", attr "accept-charset" []);
    ("allowFullScreen", attr "allowfullscreen" [HasBooleanValue]);
    ("async", attr "async" [HasBooleanValue]);
    ("autoPlay", attr "autoplay" [HasBooleanValue]);
    ("capture", attr "capture" [HasBooleanValue]);
    ("checked", attr "checked" [MustUseProperty; HasBooleanValue]);
    ("className", attr "class" []);
    ("cols", attr "cols" [HasNumericValue]);
    ("controls", attr "controls" [HasBooleanValue]);
    ("default", attr "default" [HasBooleanValue]);
    ("defer", attr "defer" [HasBooleanValue]);
    ("disabled", attr "disabled" [HasBooleanValue]);
    ("download", attr "download" [HasOverloadedBooleanValue]);
    ("formNoValidate", attr "formnovalidate" [HasBooleanValue]);
    ("hidden", attr "hidden" [HasBooleanValue]);
    ("htmlFor", attr "for" []);
    ("httpEquiv", attr "http-equiv" []);
    ("loop", attr "loop" [HasBooleanValue]);
    ("multiple", attr "multiple" [MustUseProperty; HasBooleanValue]);
    ("muted", attr "muted" [MustUseProperty; HasBooleanValue]);
    ("noValidate", attr "novalidate" [HasBooleanValue]);
    ("open", attr "open" [HasBooleanValue]);
    ("playsInline", attr "playsinline" [HasBooleanValue]);
    ("readOnly", attr "readonly" [HasBooleanValue]);
    ("required", attr "required" [HasBooleanValue]);
    ("reversed", attr "reversed" [HasBooleanValue]);
    ("rows", attr "rows" [HasNumericValue; HasPositiveNumericValue]);
    ("rowSpan", attr "rowspan" [HasNumericValue]);
    ("scoped", attr "scoped" [HasBooleanValue]);
    ("seamless", attr "seamless" [HasBooleanValue]);
    ("selected", attr "selected" [MustUseProperty; HasBooleanValue]);
    ("size", attr "size" [HasNumericValue; HasPositiveNumericValue]);
    ("span", attr "span" [HasNumericValue; HasPositiveNumericValue]);
    ("start", attr "start" [HasNumericValue]);
    ("itemScope", attr "itemscope" [HasBooleanValue]);
    ("value", entry "value" None (Some valueMutationMethod) []);
    ("accentHeight", attr "accent-height" []);
    ("alignmentBaseline", attr "alignment-baseline" []);
    ("arabicForm", attr "arabic-form" []);
    ("baselineShift", attr "baseline-shift" []);
    ("capHeight", attr "cap-height" []);
    ("clipPath", attr "clip-path" []);
    ("clipRule", attr "clip-rule" []);
    ("colorInterpolation", attr "color-interpolation" []);
    ("colorInterpolationFilters", attr "color-interpolation-filters" []);
    ("colorProfile", attr "color-profile" []);
    ("colorRendering", attr "color-rendering" []);
    ("dominantBaseline", attr "dominant-baseline" []);
    ("enableBackground", attr "enable-background" []);
    ("fillOpacity", attr "fill-opacity" []);
    ("fillRule", attr "fill-rule" []);
    ("filterRes", attr "filterRes" []);
    ("filterUnits", attr "filterUnits" []);
    ("floodColor", attr "flood-color" []);
    ("floodOpacity", attr "flood-opacity" []);
    ("fontFamily", attr "font-family" []);
    ("fontSize", attr "font-size" []);
    ("fontSizeAdjust", attr "font-size-adjust" []);
    ("fontStretch", attr "font-stretch" []);
    ("fontStyle", attr "font-style" []);
    ("fontVariant", attr "font-variant" []);
    ("fontWeight", attr "font-weight" []);
    ("glyphName", attr "glyph-name" []);
    ("glyphOrientationHorizontal", attr "glyph-orientation-horizontal" []);
    ("glyphOrientationVertical", attr "glyph-orientation-vertical" []);
    ("glyphRef", attr "glyphRef" []);
    ("horizAdvX", attr "horiz-adv-x" []);
    ("horizOriginX", attr "horiz-origin-x" []);
    ("imageRendering", attr "image-rendering" []);
    ("letterSpacing", attr "letter-spacing" []);
    ("lightingColor", attr "lighting-color" []);
    ("markerEnd", attr "marker-end" []);
    ("markerMid", attr "marker-mid" []);
    ("markerStart", attr "marker-start" []);
    ("overlinePosition", attr "overline-position" []);
    ("overlineThickness", attr "overline-thickness" []);
    ("paintOrder", attr "paint-order" []);
    ("panose1", attr "panose-1" []);
    ("pointerEvents", attr "pointer-events" []);
    ("renderingIntent", attr "rendering-intent" []);
    ("shapeRendering", attr "shape-rendering" []);
    ("stopColor", attr "stop-color" []);
    ("stopOpacity", attr "stop-opacity" []);
    ("strikethroughPosition", attr "strikethrough-position" []);
    ("strikethroughThickness", attr "strikethrough-thickness" []);
    ("strokeDasharray", attr "stroke-dasharray" []);
    ("strokeDashoffset", attr "stroke-dashoffset" []);
    ("strokeLinecap", attr "stroke-linecap" []);
    ("strokeLinejoin", attr "stroke-linejoin" []);
    ("strokeMiterlimit", attr "stroke-miterlimit" []);
    ("strokeOpacity", attr "stroke-opacity" []);
    ("strokeWidth", attr "stroke-width" []);
    ("textAnchor", attr "text-anchor" []);
    ("textDecoration", attr "text-decoration" []);
    ("textRendering", attr "text-rendering" []);
    ("underlinePosition", attr "underline-position" []);
    ("underlineThickness", attr "underline-thickness" []);
    ("unicodeBidi", attr "unicode-bidi" []);
    ("unicodeRange", attr "unicode-range" []);
    ("unitsPerEm", attr "units-per-em" []);
    ("vAlphabetic", attr "v-alphabetic" []);
    ("vHanging", attr "v-hanging" []);
    ("vIdeographic", attr "v-ideographic" []);
    ("vMathematical", attr "v-mathematical" []);
    ("vectorEffect", attr "vector-effect" []);
    ("vertAdvY", attr "vert-adv-y" []);
    ("vertOriginX", attr "vert-origin-x" []);
    ("vertOriginY", attr "vert-origin-y" []);
    ("wordSpacing", attr "word-spacing" []);
    ("writingMode", attr "writing-mode" []);
    ("xHeight", attr "x-height" []);
    ("xlinkActuate", entry "xlink:actuate" xlink None []);
    ("xlinkArcrole", entry "xlink:arcrole" xlink None []);
    ("xlinkHref", entry "xlink:href" xlink None []);
    ("xlinkRole", entry "xlink:role" xlink None []);
    ("xlinkShow", entry "xlink:show" xlink None []);
    ("xlinkTitle", entry "xlink:title" xlink None []);
    ("xlinkType", entry "xlink:type" xlink None []);
    ("xmlBase", entry "xml:base" xml None []);
    ("xmlnsXlink", attr "xmlns:xlink" []);
    ("xmlLang", entry "xml:lang" xml None []);
    ("xmlSpace", entry "xml:space" xml None []) ].

Definition ID_ATTRIBUTE_NAME : string := "data-reactid".
Definition ROOT_ATTRIBUTE_NAME : string := "data-reactroot".

Definition ATTRIBUTE_NAME_START_CHAR : string :=
  ":A-Z_a-z\u00C0-\u00D6\u00D8-\u00F6\u00F8-\u02FF\u0370-\u037D\u037F-\u1FFF\u200C-\u200D\u2070-\u218F\u2C00-\u2FEF\u3001-\uD7FF\uF900-\uFDCF\uFDF0-\uFFFD".

Definition ATTRIBUTE_NAME_CHAR : string :=
  ATTRIBUTE_NAME_START_CHAR ++
  "\-.0-9\u00B7\u0300-\u036F\u203F-\u2040".

(** [getPossibleStandardName] in a development build. *)
Definition getPossibleStandardName : Obj string :=
  {[ "autofocus" := "autoFocus" ]}.

(** What a member of the exported object [DOMProperty] holds: a string,
    a table (given by its enumerable keys, in order) or a function. *)
Inductive Member : Type :=
| StringMember (s : string)
| TableMember (keys : list string)
| FunctionMember.

(** The exported object, in the order of the object literal. *)
Definition members (h : Heap) : list (string * Member) :=
  [ ("ID_ATTRIBUTE_NAME", StringMember ID_ATTRIBUTE_NAME);
    ("ROOT_ATTRIBUTE_NAME", StringMember ROOT_ATTRIBUTE_NAME);
    ("ATTRIBUTE_NAME_START_CHAR", StringMember ATTRIBUTE_NAME_START_CHAR);
    ("ATTRIBUTE_NAME_CHAR", StringMember ATTRIBUTE_NAME_CHAR);
    ("properties", TableMember (map fst (registry h)));
    ("getPossibleStandardName", TableMember ["autofocus"]);
    ("isReservedProp", FunctionMember) ].

(** [DOMProperty[name]]; [None] is [undefined]. *)
Fixpoint lookupMember (ms : list (string * Member)) (name : string) : option Member :=
  match ms with
  | [] => None
  | (k, m) :: rest => if String.eqb k name then Some m else lookupMember rest name
  end.

(** The keys [for (key in v)] visits: those of a table, the indices of a
    string, none for a function and none for [undefined]. *)
Definition forIn (v : option Member) : list string :=
  match v with
  | Some (TableMember ks) => ks
  | Some (StringMember s) => map pretty (seq 0 (String.length s))
  | Some FunctionMember => []
  | None => []
  end.

(** [isReservedProp(name)]. *)
Definition isReservedProp (name : string) : M bool :=
  reserved <- gets reservedProps ;;
  lift (hasOwnProperty reserved name).

End DOMProperty.

(** ** ReactDOMUnknownPropertyHook *)

(** The collaborators the hook requires and that live outside the two
    modules: the two tables of EventPluginRegistry (well-formed objects
    keyed by registration names, resp. their lower-cased forms, mapping to
    non-null values) and the two sources of a component stack. *)
Record Externals : Type := {
  registrationNameModules : gset string;
  possibleRegistrationNames : gmap string string;
  getStackAddendumByID : nat -> string;
  ReactDebugCurrentFrame_getStackAddendum : option string
}.

(** An element as the Stack hooks receive it: its [type] is a tag name or
    a component. *)
Inductive ElementType : Type :=
| HostTag (tag : string)
| Component.

Record Element : Type := {
  type : ElementType;
  props : Bag
}.

Module ReactDOMUnknownPropertyHook.

Section Hook.

Variable E : Externals.

(** [debugID] is a number on Stack and [null]/[undefined] on Fiber and
    on the server. *)
Definition getStackAddendum (debugID : option nat) : string :=
  match debugID with
  | Some id => getStackAddendumByID E id
  | None =>
      match ReactDebugCurrentFrame_getStackAddendum E with
      | Some stack => stack
      | None => ""
      end
  end.

(** The object literal [possibleStandardNames] starts from. *)
Definition possibleStandardNames_literal : Obj string :=
  list_to_map
    [ ("autofocus", "autoFocus");
      ("class", "className");
      ("for", "htmlFor");
      ("accept-charset", "acceptCharset");
      ("http-equiv", "httpEquiv") ].

(** Module initialisation, lines 38-49:
    [for (var key in DOMProperty.attributeName)
       possibleStandardNames[key.toLowerCase()] = key]. *)
Definition initPossibleStandardNames (h : Heap) : Obj string :=
  fold_left
    (fun names key => assign names (toLowerCase key) key)
    (DOMProperty.forIn
       (DOMProperty.lookupMember (DOMProperty.members h) "attributeName"))
    possibleStandardNames_literal.

(** The heap once both modules are loaded. *)
Definition loaded : Heap :=
  let h0 := {| reservedProps := DOMProperty.RESERVED_PROPS;
               registry := DOMProperty.properties;
               warnedProperties := ∅;
               possibleStandardNames := ∅;
               console := [] |} in
  {| reservedProps := reservedProps h0;
     registry := registry h0;
     warnedProperties := ∅;
     possibleStandardNames := initPossibleStandardNames h0;
     console := [] |}.

Definition validateProperty (tagName name : string) (debugID : option nat) : M bool :=
  let lowerCasedName := toLowerCase name in
  warned <- gets warnedProperties ;;
  own <- lift (hasOwnProperty warned name) ;;
  if own && default false (warned !! name) then ret true
  else
    modify (fun h => setWarnedProperties (assign (warnedProperties h) name true) h) ;;;
    if bool_decide (name ∈ registrationNameModules E) then ret true
    else
      let registrationName := possibleRegistrationNames E !! lowerCasedName in
      match registrationName with
      | Some registrationName =>
          warning false
            "Unknown event handler property %s. Did you mean `%s`?%s"
            [name; registrationName; getStackAddendum debugID] ;;;
          ret true
      | None =>
          names <- gets possibleStandardNames ;;
          own <- lift (hasOwnProperty names name) ;;
          let standardName := if own then names !! name else None in
          let hasBadCasing :=
            match standardName with
            | Some s => negb (String.eqb s name)
            | None => false
            end in
          if negb hasBadCasing then ret true
          else
            match standardName with
            | Some standardName =>
                warning false
                  "Unknown DOM property %s. Did you mean %s?%s"
                  [name; standardName; getStackAddendum debugID] ;;;
                ret true
            | None => DOMProperty.isReservedProp name
            end
      end.

(** The loop of [warnUnknownProperties], lines 108-114: the keys for
    which [validateProperty] answered false, in the order visited. *)
Fixpoint collectUnknownProps (type : string) (keys : list string)
         (debugID : option nat) (unknownProps : list string) : M (list string) :=
  match keys with
  | [] => ret unknownProps
  | key :: rest =>
      isValid <- validateProperty type key debugID ;;
      collectUnknownProps type rest debugID
        (if isValid then unknownProps else unknownProps ++ [key])
  end.

Definition unknownPropString (unknownProps : list string) : string :=
  join ", " (map (fun prop => "`" ++ prop ++ "`") unknownProps).

(** The tail of [warnUnknownProperties], lines 116-136. *)
Definition reportUnknownProps (type : string) (unknownProps : list string)
           (debugID : option nat) : M unit :=
  if (length unknownProps =? 1)%nat then
    warning false
      ("Unknown prop %s on <%s> tag. Remove this prop from the element. " ++
       "For details, see https://fb.me/react-unknown-prop%s")
      [unknownPropString unknownProps; type; getStackAddendum debugID]
  else if (1 <? length unknownProps)%nat then
    warning false
      ("Unknown props %s on <%s> tag. Remove these props from the element. " ++
       "For details, see https://fb.me/react-unknown-prop%s")
      [unknownPropString unknownProps; type; getStackAddendum debugID]
  else ret tt.

Definition warnUnknownProperties (type : string) (props : Bag)
           (debugID : option nat) : M unit :=
  unknownProps <- collectUnknownProps type (keys props) debugID [] ;;
  reportUnknownProps type unknownProps debugID.

Definition validateProperties (type : string) (props : Bag)
           (debugID : option nat) : M unit :=
  if (0 <=? indexOf type "-") || ToBoolean (get props "is") then ret tt
  else warnUnknownProperties type props debugID.

(** The Stack hooks: [element != null && typeof element.type === 'string']. *)
Definition onBeforeMountComponent (debugID : option nat) (element : option Element) : M unit :=
  match element with
  | Some {| type := HostTag tag; props := p |} => validateProperties tag p debugID
  | _ => ret tt
  end.

Definition onBeforeUpdateComponent (debugID : option nat) (element : option Element) : M unit :=
  match element with
  | Some {| type := HostTag tag; props := p |} => validateProperties tag p debugID
  | _ => ret tt
  end.

End Hook.

End ReactDOMUnknownPropertyHook.

(** ** The mutation method of [value] *)

Module DOMNode.

(** [node.validity]. *)
Record ValidityState : Type := {
  badInput : bool
}.

(** What the mutation method reads and writes of a DOM element: its
    [type] (undefined on elements that have none), its attributes, its
    [validity] (undefined where constraint validation is not implemented)
    and whether it is the [activeElement] of its document. *)
Record Node : Type := {
  type : option string;
  attributes : gmap string string;
  validity : option ValidityState;
  isActiveElement : bool
}.

Definition hasAttribute (node : Node) (name : string) : bool :=
  bool_decide (is_Some (attributes node !! name)).

Definition removeAttribute (node : Node) (name : string) : Node :=
  {| type := type node;
     attributes := delete name (attributes node);
     validity := validity node;
     isActiveElement := isActiveElement node |}.

Definition setAttribute (node : Node) (name value : string) : Node :=
  {| type := type node;
     attributes := <[name := value]> (attributes node);
     validity := validity node;
     isActiveElement := isActiveElement node |}.

Section Mutation.

(** ['' + value], the string a value is converted to. *)
Variable ToString : Value -> string.

(** [properties.value.mutationMethod], lines 241-266 of DOMProperty.js. *)
Definition valueMutation (node : Node) (value : Value) : Node :=
  match value with
  | Undefined | Null => removeAttribute node "value"
  | _ =>
      if negb (bool_decide (type node = Some "number"))
         || negb (hasAttribute node "value")
      then setAttribute node "value" (ToString value)
      else
        match validity node with
        | Some v =>
            if negb (badInput v) && negb (isActiveElement node)
            then setAttribute node "value" (ToString value)
            else node
        | None => node
        end
  end.

Definition applyMutationMethod (m : MutationMethod) : Node -> Value -> Node :=
  match m with
  | valueMutationMethod => valueMutation
  end.

End Mutation.

End DOMNode.

(** * Observations on heaps and calls *)

Import ReactDOMUnknownPropertyHook.

(** An environment to evaluate the hook in: two click-style registration
    names, no component stacks. *)
Definition sampleExternals : Externals :=
  {| registrationNameModules := {[ "onClick"; "onChange" ]};
     possibleRegistrationNames :=
       {[ "onclick" := "onClick"; "onchange" := "onChange" ]};
     getStackAddendumByID := fun _ => "";
     ReactDebugCurrentFrame_getStackAddendum := None |}.

(** The check made of each entry of the registry. *)
Definition numericFlagsConsistent (d : AttributeDescriptor) : bool :=
  implb (hasPositiveNumericValue d) (hasNumericValue d).

(** [evolves h h']: the tables of DOMProperty and the alias table are the
    same objects with the same contents, the cache has lost no name and the
    console has lost no line. *)
Record evolves (h h' : Heap) : Prop := {
  ev_reserved : reservedProps h' = reservedProps h;
  ev_registry : registry h' = registry h;
  ev_names : possibleStandardNames h' = possibleStandardNames h;
  ev_cache : dom (warnedProperties h) ⊆ dom (warnedProperties h');
  ev_console : console h `prefix_of` console h'
}.

(** A computation that, from any heap, ends in a heap [evolves] relates to it. *)
Definition frames {A} (m : M A) : Prop := forall h, evolves h (snd (m h)).

(** The name that a console line of [validateProperty] is about. *)
Definition perName (w : Warning) : bool :=
  String.eqb (format w) "Unknown event handler property %s. Did you mean `%s`?%s"
  || String.eqb (format w) "Unknown DOM property %s. Did you mean %s?%s".

Definition mentions (n : string) (w : Warning) : bool :=
  perName w && match args w with
               | a :: _ => String.eqb a n
               | [] => false
               end.

Definition mentioned (n : string) (h : Heap) : nat :=
  length (filter (fun w => mentions n w = true) (console h)).

(** The cache can still be asked: no own property shadows
    [hasOwnProperty]. *)
Definition askable (h : Heap) : Prop :=
  warnedProperties h !! "hasOwnProperty" = None.

Definition record (name : string) (h : Heap) : Heap :=
  setWarnedProperties (assign (warnedProperties h) name true) h.

(** The entry points of the module. *)
Inductive Call : Type :=
| CallValidateProperties (type : string) (props : Bag) (debugID : option nat)
| CallOnBeforeMountComponent (debugID : option nat) (element : option Element)
| CallOnBeforeUpdateComponent (debugID : option nat) (element : option Element).

Definition perform (E : Externals) (c : Call) : M unit :=
  match c with
  | CallValidateProperties type props debugID =>
      validateProperties E type props debugID
  | CallOnBeforeMountComponent debugID element =>
      onBeforeMountComponent E debugID element
  | CallOnBeforeUpdateComponent debugID element =>
      onBeforeUpdateComponent E debugID element
  end.

(** The heap after a sequence of calls; a call that throws leaves the heap
    as it was at the throw, and the next call runs on that heap. *)
Fixpoint after (E : Externals) (cs : list Call) (h : Heap) : Heap :=
  match cs with
  | [] => h
  | c :: rest => after E rest (snd (perform E c h))
  end.

(** What holds of the heap after load and is kept by every call: the
    alias table is the loaded one, the console holds only lines of
    [validateProperty], no name is the subject of two of them, and the
    subject of a line is recorded in the cache. *)
Record tidy (h : Heap) : Prop := {
  tidy_names : possibleStandardNames h = possibleStandardNames loaded;
  tidy_console : Forall (fun w => perName w = true) (console h);
  tidy_once : forall n, (mentioned n h <= 1)%nat;
  tidy_recorded :
    forall n, (0 < mentioned n h)%nat -> warnedProperties h !! n = Some true
}.

(** The names a call hands to [validateProperty]. *)
Definition callKeys (c : Call) : list string :=
  match c with
  | CallValidateProperties _ props _ => keys props
  | CallOnBeforeMountComponent _ (Some {| type := HostTag _; props := p |}) => keys p
  | CallOnBeforeUpdateComponent _ (Some {| type := HostTag _; props := p |}) => keys p
  | _ => []
  end.

(** An attribute name without its hyphens and colons. *)
Fixpoint dropSeparators (s : string) : string :=
  match s with
  | EmptyString => EmptyString
  | String c s' =>
      if Ascii.eqb c "-" || Ascii.eqb c ":" then dropSeparators s'
      else String c (dropSeparators s')
  end.

(** The kinds of value a descriptor declares. *)
Definition valueKinds (d : AttributeDescriptor) : nat :=
  (Nat.b2n (hasBooleanValue d) + Nat.b2n (hasNumericValue d)
   + Nat.b2n (hasOverloadedBooleanValue d))%nat.

(** A line of [validateProperty] about one of the names [ks]. *)
Definition lineAbout (ks : list string) (w : Warning) : Prop :=
  perName w = true /\ exists key, In key ks /\ hd_error (args w) = Some key.

(** The heaps on which a bag without the key [hasOwnProperty] is validated
    to the end. *)
Definition sound (h : Heap) : Prop :=
  askable h /\ possibleStandardNames h = possibleStandardNames loaded.

(** [value == null]. *)
Definition nullish (value : Value) : Prop := value = Undefined \/ value = Null.

(** * Properties *)

(** ** Strings *)

Lemma prefix_app (needle rest : string) :
  String.prefix needle (needle +:+ rest) = true.
Proof.
  induction needle as [|c needle IH]; simpl.
  - destruct rest; reflexivity.
  - destruct (ascii_dec c c) as [_|Hne]; [exact IH | congruence].
Qed.

Lemma indexOfFrom_lower_bound (needle s : string) :
  forall i, -1 <= i -> -1 <= indexOfFrom i needle s.
Proof.
  induction s as [|c s IH]; intros i Hi; simpl.
  - destruct needle; lia.
  - match goal with |- context [if ?b then _ else _] => destruct b end;
      [lia|].
    apply IH. lia.
Qed.

(** A tag name in which [needle] occurs has a non-negative [indexOf]. *)
Lemma indexOfFrom_found (needle before after : string) :
  forall i, 0 <= i -> 0 <= indexOfFrom i needle (before +:+ needle +:+ after).
Proof.
  induction before as [|c before IH]; intros i Hi.
  - change ("" +:+ needle +:+ after) with (needle +:+ after).
    pose proof (prefix_app needle after) as Hp.
    destruct (needle +:+ after); cbn [indexOfFrom]; rewrite Hp; lia.
  - simpl.
    match goal with |- context [if ?b then _ else _] => destruct b end;
      [lia|].
    apply IH. lia.
Qed.

Lemma indexOf_found (needle before after : string) :
  0 <= indexOf (before +:+ needle +:+ after) needle.
Proof. unfold indexOf. apply indexOfFrom_found. lia. Qed.

Lemma prefix_occurs (needle : string) :
  forall s, String.prefix needle s = true -> exists after, s = needle +:+ after.
Proof.
  induction needle as [|c needle IH]; intros s Hp.
  - exists s. reflexivity.
  - destruct s as [|d s]; simpl in Hp; [discriminate|].
    destruct (ascii_dec c d) as [->|]; [|discriminate].
    destruct (IH s Hp) as [after ->]. exists after. reflexivity.
Qed.

Lemma indexOfFrom_occurs (needle s : string) :
  forall i, 0 <= i -> 0 <= indexOfFrom i needle s ->
            exists before after, s = before +:+ needle +:+ after.
Proof.
  induction s as [|c s IH]; intros i Hi Hidx.
  - cbn [indexOfFrom] in Hidx.
    destruct (String.prefix needle "") eqn:Hp; [|lia].
    destruct (prefix_occurs _ _ Hp) as [after Hafter].
    exists "", after. exact Hafter.
  - cbn [indexOfFrom] in Hidx.
    destruct (String.prefix needle (String c s)) eqn:Hp.
    + destruct (prefix_occurs _ _ Hp) as [after Hafter].
      exists "", after. exact Hafter.
    + destruct (IH (i + 1)) as (before & after & ->); [lia | exact Hidx |].
      exists (String c before), after. reflexivity.
Qed.

(** [type.indexOf('-') >= 0] says that a hyphen occurs in the tag name. *)
Lemma indexOf_hyphen (type : string) :
  0 <= indexOf type "-" <-> exists before after, type = before +:+ "-" +:+ after.
Proof.
  split.
  - apply indexOfFrom_occurs. lia.
  - intros (before & after & ->). apply indexOf_found.
Qed.

(** The lower-case mapping on code units, by value. *)
Lemma lowerChar_value (n : nat) :
  (n < 256)%nat ->
  nat_of_ascii (lowerChar (ascii_of_nat n)) =
    if (((65 <=? n) && (n <=? 90))
        || ((192 <=? n) && (n <=? 222) && negb (n =? 215)))%nat
    then (n + 32)%nat else n.
Proof.
  intros Hn. unfold lowerChar.
  rewrite (nat_ascii_embedding n Hn).
  destruct (((65 <=? n) && (n <=? 90))
            || ((192 <=? n) && (n <=? 222) && negb (n =? 215)))%nat eqn:Hup.
  - apply nat_ascii_embedding.
    apply orb_true_iff in Hup. destruct Hup as [Hup|Hup].
    + apply andb_true_iff in Hup. destruct Hup as [_ Hup].
      apply Nat.leb_le in Hup. lia.
    + apply andb_true_iff in Hup. destruct Hup as [Hup _].
      apply andb_true_iff in Hup. destruct Hup as [_ Hup].
      apply Nat.leb_le in Hup. lia.
  - apply nat_ascii_embedding. exact Hn.
Qed.

(** Lower-casing a lower-cased string changes nothing, and lower-casing
    keeps the number of code units. *)
Lemma lowerChar_idempotent (c : ascii) : lowerChar (lowerChar c) = lowerChar c.
Proof.
  destruct c as [[] [] [] [] [] [] [] []]; reflexivity.
Qed.

Lemma toLowerCase_idempotent (s : string) :
  toLowerCase (toLowerCase s) = toLowerCase s.
Proof.
  induction s as [|c s IH]; simpl; [reflexivity|].
  rewrite lowerChar_idempotent, IH. reflexivity.
Qed.

Lemma toLowerCase_length (s : string) :
  String.length (toLowerCase s) = String.length s.
Proof.
  induction s as [|c s IH]; simpl; [reflexivity | rewrite IH; reflexivity].
Qed.

Example toLowerCase_latin1 :
  toLowerCase (String (ascii_of_nat 201) "COLE" +:+ String (ascii_of_nat 215)
               (String (ascii_of_nat 223) ""))
  = String (ascii_of_nat 233) "cole" +:+ String (ascii_of_nat 215)
      (String (ascii_of_nat 223) "").
Proof. reflexivity. Qed.

(** ** DOMProperty: the reserved props and the registry *)

Lemma RESERVED_PROPS_hasOwnProperty_callable :
  DOMProperty.RESERVED_PROPS !! "hasOwnProperty" = None.
Proof. reflexivity. Qed.

Lemma own_key_of_literal {V} (l : list (string * V)) (name : string) :
  is_Some ((list_to_map l : Obj V) !! name) <-> name ∈ l.*1.
Proof.
  split.
  - intros Hs. destruct (decide (name ∈ l.*1)) as [|Hn]; [assumption|].
    apply not_elem_of_list_to_map_1 in Hn.
    rewrite Hn in Hs. destruct Hs as [? ?]. discriminate.
  - intros Hin. apply not_eq_None_Some. intros Hn.
    apply not_elem_of_list_to_map_2 in Hn. contradiction.
Qed.

(** C8.  [isReservedProp(name)] answers true exactly for the eleven
    reserved names and false for every other string; in particular for
    [toString], which [RESERVED_PROPS] only inherits. *)
Theorem isReservedProp_exactly_reserved (h : Heap) (name : string) :
  reservedProps h = DOMProperty.RESERVED_PROPS ->
  DOMProperty.isReservedProp name h =
    (Normal (bool_decide (name ∈
       [ "children"; "dangerouslySetInnerHTML"; "key"; "ref"; "autoFocus";
         "defaultValue"; "defaultChecked"; "innerHTML";
         "suppressContentEditableWarning"; "onFocusIn"; "onFocusOut" ])), h)
  /\ DOMProperty.isReservedProp "toString" h = (Normal false, h).
Proof.
  intros Hres.
  unfold DOMProperty.isReservedProp, bind, gets, lift, hasOwnProperty.
  rewrite Hres, RESERVED_PROPS_hasOwnProperty_callable.
  split; [|reflexivity].
  do 2 f_equal. apply bool_decide_ext.
  unfold DOMProperty.RESERVED_PROPS. rewrite own_key_of_literal.
  reflexivity.
Qed.

Lemma isReservedProp_exactly_reserved_witness :
  DOMProperty.isReservedProp "key" loaded = (Normal true, loaded)
  /\ DOMProperty.isReservedProp "toString" loaded = (Normal false, loaded).
Proof.
  exact (isReservedProp_exactly_reserved loaded "key" eq_refl).
Defined.

Lemma registry_numericFlagsConsistent :
  forallb (fun p => numericFlagsConsistent (snd p)) DOMProperty.properties = true.
Proof. vm_compute. reflexivity. Qed.

(** C10.  Every descriptor of the registry that sets
    [hasPositiveNumericValue] also sets [hasNumericValue]. *)
Theorem positive_numeric_is_numeric (name : string) (d : AttributeDescriptor) :
  In (name, d) DOMProperty.properties ->
  hasPositiveNumericValue d = true ->
  hasNumericValue d = true.
Proof.
  intros Hin Hpos.
  pose proof registry_numericFlagsConsistent as Hall.
  rewrite forallb_forall in Hall.
  specialize (Hall _ Hin). unfold numericFlagsConsistent in Hall.
  simpl in Hall. rewrite Hpos in Hall. exact Hall.
Qed.

Lemma positive_numeric_is_numeric_witness :
  hasNumericValue (attr "rows" [HasNumericValue; HasPositiveNumericValue]) = true.
Proof.
  apply (positive_numeric_is_numeric "rows").
  - unfold DOMProperty.properties.
    repeat first [ left; reflexivity | right ].
  - reflexivity.
Defined.

(** ** The combined warning of [warnUnknownProperties] *)

Section Report.

Variable E : Externals.

(** What the tail of [warnUnknownProperties] writes, for any list of
    unknown props: nothing for none, the singular sentence for one, the
    plural sentence for several. *)
Lemma reportUnknownProps_spec (type : string) (unknownProps : list string)
      (debugID : option nat) (h : Heap) :
  reportUnknownProps E type unknownProps debugID h =
    (Normal tt,
     match unknownProps with
     | [] => h
     | [_] =>
         log {| format :=
                  "Unknown prop %s on <%s> tag. Remove this prop from the element. For details, see https://fb.me/react-unknown-prop%s";
                args := [ String.concat ", " (map (fun prop => "`" +:+ prop +:+ "`") unknownProps);
                          type; getStackAddendum E debugID ] |} h
     | _ :: _ :: _ =>
         log {| format :=
                  "Unknown props %s on <%s> tag. Remove these props from the element. For details, see https://fb.me/react-unknown-prop%s";
                args := [ String.concat ", " (map (fun prop => "`" +:+ prop +:+ "`") unknownProps);
                          type; getStackAddendum E debugID ] |} h
     end).
Proof.
  unfold reportUnknownProps.
  destruct unknownProps as [|a [|b rest]]; reflexivity.
Qed.

Lemma unknownPropString_cons (a b : string) (rest : list string) :
  unknownPropString (a :: b :: rest) =
    ("`" +:+ a +:+ "`") +:+ ", " +:+ unknownPropString (b :: rest).
Proof. reflexivity. Qed.

Lemma unknownPropString_one (a : string) :
  unknownPropString [a] = "`" +:+ a +:+ "`".
Proof. reflexivity. Qed.

End Report.

Example reportUnknownProps_two :
  console (snd (reportUnknownProps sampleExternals "div" ["foo"; "baz"] None loaded)) =
    [ {| format :=
           "Unknown props %s on <%s> tag. Remove these props from the element. For details, see https://fb.me/react-unknown-prop%s";
         args := ["`foo`, `baz`"; "div"; ""] |} ].
Proof. reflexivity. Qed.

(** ** Custom elements *)

(** C2, as the code has it.  When the tag name contains a hyphen, or the
    value of the [is] prop is truthy, [validateProperties] returns at once:
    no warning is written and the heap, the cache of warned names included,
    is the one it started from. *)
Theorem validateProperties_bypass
        (E : Externals) (type : string) (props : Bag) (debugID : option nat)
        (h : Heap) :
  (exists before after, type = before +:+ "-" +:+ after)
  \/ ToBoolean (get props "is") = true ->
  validateProperties E type props debugID h = (Normal tt, h).
Proof.
  intros Hcustom. unfold validateProperties.
  destruct Hcustom as [(before & after & ->) | His].
  - pose proof (indexOf_found "-" before after) as Hidx.
    apply Z.leb_le in Hidx. rewrite Hidx. reflexivity.
  - rewrite His, orb_true_r. reflexivity.
Qed.

Lemma validateProperties_bypass_witness :
  validateProperties sampleExternals "my-element"
    [("class", Str "a")] None loaded = (Normal tt, loaded)
  /\ validateProperties sampleExternals "button"
       [("is", Str "fancy-button"); ("class", Str "a")] None loaded
     = (Normal tt, loaded).
Proof.
  split.
  - apply validateProperties_bypass. left. exists "my", "element". reflexivity.
  - apply validateProperties_bypass. right. reflexivity.
Defined.

(** A standard tag without a truthy [is] is handed to
    [warnUnknownProperties]. *)
Lemma validateProperties_standard_tag
      (E : Externals) (type : string) (props : Bag) (debugID : option nat) :
  ~ (exists before after, type = before +:+ "-" +:+ after) ->
  ToBoolean (get props "is") = false ->
  validateProperties E type props debugID = warnUnknownProperties E type props debugID.
Proof.
  intros Hstd His. unfold validateProperties. rewrite His, orb_false_r.
  destruct (0 <=? indexOf type "-") eqn:Hidx; [|reflexivity].
  exfalso. apply Hstd. apply indexOf_hyphen. apply Z.leb_le. exact Hidx.
Qed.

(** C2, as stated, fails: a bag that contains [is] with a falsy value (the
    empty string) does not bypass validation; the [class] prop next to it
    is warned about and both names enter the cache. *)
Lemma falsy_is_prop_is_validated :
  ~ (forall (E : Externals) (type : string) (props : Bag)
            (debugID : option nat) (h : Heap),
        (exists before after, type = before +:+ "-" +:+ after)
        \/ In "is" (keys props) ->
        console (snd (validateProperties E type props debugID h)) = console h
        /\ warnedProperties (snd (validateProperties E type props debugID h))
           = warnedProperties h).
Proof.
  intros Hclaim.
  destruct (Hclaim sampleExternals "div"
              [("is", Str ""); ("class", Str "a")] None loaded) as [Hconsole _].
  - right. simpl. left. reflexivity.
  - vm_compute in Hconsole. discriminate Hconsole.
Qed.

(** ** What every operation leaves alone *)

Lemma evolves_refl (h : Heap) : evolves h h.
Proof. split; reflexivity. Qed.

Lemma evolves_trans (h1 h2 h3 : Heap) :
  evolves h1 h2 -> evolves h2 h3 -> evolves h1 h3.
Proof.
  intros [a1 b1 c1 d1 e1] [a2 b2 c2 d2 e2].
  split; try congruence.
  - etransitivity; eassumption.
  - etransitivity; eassumption.
Qed.

Lemma frames_ret {A} (a : A) : frames (ret a).
Proof. intros h. apply evolves_refl. Qed.

Lemma frames_lift {A} (c : Completion A) : frames (lift c).
Proof. intros h. apply evolves_refl. Qed.

Lemma frames_gets {A} (f : Heap -> A) : frames (gets f).
Proof. intros h. apply evolves_refl. Qed.

Lemma frames_bind {A B} (m : M A) (k : A -> M B) :
  frames m -> (forall a, frames (k a)) -> frames (bind m k).
Proof.
  intros Hm Hk h. unfold bind.
  specialize (Hm h). destruct (m h) as [[a|e] h1]; simpl in *.
  - eapply evolves_trans; [exact Hm | apply Hk].
  - exact Hm.
Qed.

Lemma frames_warning (condition : bool) (fmt : string) (a : list string) :
  frames (warning condition fmt a).
Proof.
  intros h. unfold warning. destruct condition; [apply evolves_refl|].
  split; simpl; try reflexivity. apply prefix_app_r. reflexivity.
Qed.

Lemma dom_assign (o : Obj bool) (name : string) (v : bool) :
  dom o ⊆ dom (assign o name v).
Proof.
  unfold assign. destruct (String.eqb name "__proto__"); [reflexivity|].
  rewrite dom_insert_L. set_solver.
Qed.

Lemma frames_record (name : string) :
  frames (modify (fun h => setWarnedProperties (assign (warnedProperties h) name true) h)).
Proof.
  intros h. split; simpl; try reflexivity. apply dom_assign.
Qed.

Ltac frames_step :=
  first
    [ apply frames_ret
    | apply frames_lift
    | apply frames_gets
    | apply frames_warning
    | apply frames_record
    | apply frames_bind; [|intros ?]
    | match goal with
      | |- frames (if ?b then _ else _) => destruct b
      | |- frames (match ?x with _ => _ end) => destruct x
      end ].

Section Frame.

Variable E : Externals.

Lemma frames_isReservedProp (name : string) :
  frames (DOMProperty.isReservedProp name).
Proof. unfold DOMProperty.isReservedProp. repeat frames_step. Qed.

Lemma frames_validateProperty (tagName name : string) (debugID : option nat) :
  frames (validateProperty E tagName name debugID).
Proof.
  unfold validateProperty.
  repeat first [ apply frames_isReservedProp | frames_step ].
Qed.

Lemma frames_collectUnknownProps (type : string) (ks : list string)
      (debugID : option nat) :
  forall unknownProps, frames (collectUnknownProps E type ks debugID unknownProps).
Proof.
  induction ks as [|key rest IH]; intros unknownProps; simpl.
  - apply frames_ret.
  - apply frames_bind; [apply frames_validateProperty|].
    intros isValid. apply IH.
Qed.

Lemma frames_warnUnknownProperties (type : string) (props : Bag)
      (debugID : option nat) :
  frames (warnUnknownProperties E type props debugID).
Proof.
  unfold warnUnknownProperties.
  apply frames_bind; [apply frames_collectUnknownProps|].
  intros unknownProps. unfold reportUnknownProps. repeat frames_step.
Qed.

(** No call of [validateProperties] changes [RESERVED_PROPS],
    [DOMProperty.properties] or the alias table, whatever the heap it
    starts from and however it completes; the cache only gains names. *)
Lemma frames_validateProperties (type : string) (props : Bag)
      (debugID : option nat) :
  frames (validateProperties E type props debugID).
Proof.
  unfold validateProperties.
  destruct (_ || _); [apply frames_ret | apply frames_warnUnknownProperties].
Qed.

Lemma frames_onBeforeMountComponent (debugID : option nat) (element : option Element) :
  frames (onBeforeMountComponent E debugID element).
Proof.
  destruct element as [[[tag|] p]|]; simpl;
    first [apply frames_validateProperties | apply frames_ret].
Qed.

Lemma frames_onBeforeUpdateComponent (debugID : option nat) (element : option Element) :
  frames (onBeforeUpdateComponent E debugID element).
Proof.
  destruct element as [[[tag|] p]|]; simpl;
    first [apply frames_validateProperties | apply frames_ret].
Qed.

End Frame.

(** ** What [validateProperty] answers *)

Section Classification.

Variable E : Externals.

(** The return on line 103 is never reached: [hasBadCasing] implies
    [standardName != null].  So [validateProperty] answers true whenever
    it answers. *)
Lemma validateProperty_true_or_throws (tagName name : string)
      (debugID : option nat) (h : Heap) :
  fst (validateProperty E tagName name debugID h) = Normal true
  \/ exists e, fst (validateProperty E tagName name debugID h) = Throw e.
Proof.
  unfold validateProperty, bind, gets, lift, modify, warning, ret,
    hasOwnProperty.
  simpl.
  destruct (warnedProperties h !! "hasOwnProperty"); [right; eauto|].
  destruct (bool_decide (is_Some (warnedProperties h !! name)) &&
            default false (warnedProperties h !! name)); [left; reflexivity|].
  destruct (bool_decide (name ∈ registrationNameModules E)); [left; reflexivity|].
  destruct (possibleRegistrationNames E !! toLowerCase name); [left; reflexivity|].
  simpl.
  destruct (possibleStandardNames h !! "hasOwnProperty"); [right; eauto|].
  destruct (bool_decide (is_Some (possibleStandardNames h !! name))); simpl.
  - destruct (possibleStandardNames h !! name) as [s|]; simpl.
    + destruct (String.eqb s name); left; reflexivity.
    + left; reflexivity.
  - left; reflexivity.
Qed.

Lemma validateProperty_never_false (tagName name : string)
      (debugID : option nat) (h : Heap) :
  fst (validateProperty E tagName name debugID h) <> Normal false.
Proof.
  destruct (validateProperty_true_or_throws tagName name debugID h)
    as [Ht | [e He]]; congruence.
Qed.

(** Hence the loop of [warnUnknownProperties] never adds a key. *)
Lemma collectUnknownProps_adds_nothing (type : string) (ks : list string)
      (debugID : option nat) :
  forall unknownProps h,
    fst (collectUnknownProps E type ks debugID unknownProps h) = Normal unknownProps
    \/ exists e, fst (collectUnknownProps E type ks debugID unknownProps h) = Throw e.
Proof.
  induction ks as [|key rest IH]; intros unknownProps h; simpl.
  - left. reflexivity.
  - unfold bind.
    destruct (validateProperty_true_or_throws type key debugID h)
      as [Ht | [e He]];
      destruct (validateProperty E type key debugID h) as [[b|e'] h1];
      simpl in *; try discriminate.
    + injection Ht as ->. apply IH.
    + right. eauto.
Qed.

(** [DOMProperty] has no member [attributeName]: the loop at load time
    adds nothing to the literal. *)
Lemma loaded_names : possibleStandardNames loaded = possibleStandardNames_literal.
Proof. reflexivity. Qed.

(** [validateProperty], path by path, on a heap whose alias table is the
    one built at load time. *)
Lemma validateProperty_paths (tagName name : string) (debugID : option nat)
      (h : Heap) :
  possibleStandardNames h = possibleStandardNames loaded ->
  validateProperty E tagName name debugID h =
    match warnedProperties h !! "hasOwnProperty" with
    | Some _ => (Throw (TypeError "hasOwnProperty is not a function"), h)
    | None =>
        if default false (warnedProperties h !! name) then (Normal true, h)
        else if bool_decide (name ∈ registrationNameModules E)
        then (Normal true, record name h)
        else match possibleRegistrationNames E !! toLowerCase name with
             | Some registrationName =>
                 (Normal true,
                  log {| format := "Unknown event handler property %s. Did you mean `%s`?%s";
                         args := [name; registrationName; getStackAddendum E debugID] |}
                      (record name h))
             | None =>
                 match possibleStandardNames loaded !! name with
                 | Some standardName =>
                     (Normal true,
                      log {| format := "Unknown DOM property %s. Did you mean %s?%s";
                             args := [name; standardName; getStackAddendum E debugID] |}
                          (record name h))
                 | None => (Normal true, record name h)
                 end
             end
    end.
Proof.
  rewrite loaded_names. intros Hnames.
  unfold validateProperty, bind, gets, lift, modify, warning, ret,
    hasOwnProperty.
  simpl.
  destruct (warnedProperties h !! "hasOwnProperty"); [reflexivity|].
  replace (bool_decide (is_Some (warnedProperties h !! name)) &&
           default false (warnedProperties h !! name))
    with (default false (warnedProperties h !! name)).
  2:{ destruct (warnedProperties h !! name) as [[|]|]; reflexivity. }
  destruct (default false (warnedProperties h !! name)); [reflexivity|].
  destruct (bool_decide (name ∈ registrationNameModules E)); [reflexivity|].
  destruct (possibleRegistrationNames E !! toLowerCase name); [reflexivity|].
  simpl. rewrite Hnames.
  change (possibleStandardNames_literal !! "hasOwnProperty") with (@None string).
  destruct (possibleStandardNames_literal !! name) as [s|] eqn:Hs.
  - rewrite bool_decide_eq_true_2 by eauto.
    assert (String.eqb s name = false) as ->; [|reflexivity].
    pose proof (elem_of_list_to_map_2 _ _ _ Hs) as Hin.
    apply list_elem_of_In in Hin. simpl in Hin.
    apply String.eqb_neq. intros ->.
    repeat (destruct Hin as [Hin|Hin]; [inversion Hin; subst; discriminate|]).
    exact Hin.
  - rewrite bool_decide_eq_false_2; [reflexivity|].
    intros [? ?]; discriminate.
Qed.

End Classification.

(** ** Sequences of calls *)

Section AtMostOnce.

Variable E : Externals.

(** A table filled by assignment has no own property [__proto__]. *)
Hypothesis registry_plain : possibleRegistrationNames E !! "__proto__" = None.

Lemma tidy_loaded : tidy loaded.
Proof.
  split.
  - reflexivity.
  - constructor.
  - intros n. unfold mentioned. simpl. lia.
  - intros n. unfold mentioned. simpl. lia.
Qed.

Lemma mentioned_log (n : string) (w : Warning) (h : Heap) :
  mentioned n (log w h) =
    (mentioned n h + if mentions n w then 1 else 0)%nat.
Proof.
  unfold mentioned. simpl. rewrite filter_app, length_app.
  f_equal. rewrite filter_cons, filter_nil.
  destruct (mentions n w); reflexivity.
Qed.

Lemma assign_keeps_true (o : Obj bool) (name n : string) :
  o !! n = Some true -> assign o name true !! n = Some true.
Proof.
  intros Hn. unfold assign. destruct (String.eqb name "__proto__"); [exact Hn|].
  destruct (decide (name = n)) as [->|Hne].
  - apply lookup_insert_eq.
  - rewrite lookup_insert_ne; assumption.
Qed.

Lemma assign_records (o : Obj bool) (name : string) :
  name <> "__proto__" -> assign o name true !! name = Some true.
Proof.
  intros Hne. unfold assign.
  apply String.eqb_neq in Hne. rewrite Hne. apply lookup_insert_eq.
Qed.

Lemma tidy_record (name : string) (h : Heap) : tidy h -> tidy (record name h).
Proof.
  intros [Hn Hc Ho Hr]. split; try assumption.
  intros n Hpos. simpl. apply assign_keeps_true. apply Hr. exact Hpos.
Qed.

(** A line about [name] written right after [name] was recorded. *)
Lemma tidy_log_record (name : string) (w : Warning) (h : Heap) :
  tidy h ->
  perName w = true ->
  hd_error (args w) = Some name ->
  name <> "__proto__" ->
  default false (warnedProperties h !! name) = false ->
  tidy (log w (record name h)).
Proof.
  intros Ht Hper Hhd Hproto Hfresh.
  pose proof (tidy_record name h Ht) as [Hn Hc Ho Hr].
  assert (forall n, mentions n w = true <-> n = name) as Hw.
  { intros n. unfold mentions. rewrite Hper. simpl.
    destruct (args w) as [|a l]; [discriminate|].
    injection Hhd as ->. rewrite String.eqb_eq. split; congruence. }
  assert (mentioned name (record name h) = 0%nat) as Hzero.
  { destruct (mentioned name (record name h)) eqn:Hm; [reflexivity|].
    exfalso. destruct Ht as [_ _ _ Hr0].
    rewrite (Hr0 name) in Hfresh; [discriminate|].
    change (mentioned name h) with (mentioned name (record name h)). lia. }
  split.
  - exact Hn.
  - simpl. apply Forall_app. split; [exact Hc|]. constructor; [exact Hper|constructor].
  - intros n. rewrite mentioned_log.
    destruct (mentions n w) eqn:Hm.
    + apply Hw in Hm. subst n. lia.
    + specialize (Ho n). lia.
  - intros n. rewrite mentioned_log.
    destruct (mentions n w) eqn:Hm.
    + intros _. apply Hw in Hm. subst n. simpl.
      apply assign_records. exact Hproto.
    + intros Hpos. apply Hr. lia.
Qed.

Lemma toLowerCase_proto : toLowerCase "__proto__" = "__proto__".
Proof. reflexivity. Qed.

Lemma tidy_validateProperty (tagName name : string) (debugID : option nat)
      (h : Heap) :
  tidy h -> tidy (snd (validateProperty E tagName name debugID h)).
Proof.
  intros Ht.
  rewrite validateProperty_paths by apply (tidy_names h Ht).
  destruct (warnedProperties h !! "hasOwnProperty"); [exact Ht|].
  destruct (default false (warnedProperties h !! name)) eqn:Hfresh; [exact Ht|].
  destruct (bool_decide (name ∈ registrationNameModules E));
    [apply tidy_record; exact Ht|].
  destruct (possibleRegistrationNames E !! toLowerCase name) as [r|] eqn:Hr.
  - apply tidy_log_record; try assumption; try reflexivity.
    intros ->. rewrite toLowerCase_proto in Hr. congruence.
  - destruct (possibleStandardNames loaded !! name) as [s|] eqn:Hs.
    + apply tidy_log_record; try assumption; try reflexivity.
      intros ->. discriminate Hs.
    + apply tidy_record; exact Ht.
Qed.

Lemma tidy_collectUnknownProps (type : string) (ks : list string)
      (debugID : option nat) :
  forall unknownProps h,
    tidy h -> tidy (snd (collectUnknownProps E type ks debugID unknownProps h)).
Proof.
  induction ks as [|key rest IH]; intros unknownProps h Ht; simpl.
  - exact Ht.
  - unfold bind.
    pose proof (tidy_validateProperty type key debugID h Ht) as Ht1.
    destruct (validateProperty E type key debugID h) as [[b|e] h1]; simpl in *.
    + apply IH. exact Ht1.
    + exact Ht1.
Qed.

Lemma tidy_validateProperties (type : string) (props : Bag)
      (debugID : option nat) (h : Heap) :
  tidy h -> tidy (snd (validateProperties E type props debugID h)).
Proof.
  intros Ht. unfold validateProperties.
  destruct (_ || _); [exact Ht|].
  unfold warnUnknownProperties, bind.
  pose proof (tidy_collectUnknownProps type (keys props) debugID [] h Ht) as Ht1.
  destruct (collectUnknownProps_adds_nothing E type (keys props) debugID [] h)
    as [Hv | [e He]];
    destruct (collectUnknownProps E type (keys props) debugID [] h)
      as [[l|e'] h1]; simpl in *; try discriminate; try exact Ht1.
  injection Hv as ->. exact Ht1.
Qed.

Lemma tidy_perform (c : Call) (h : Heap) :
  tidy h -> tidy (snd (perform E c h)).
Proof.
  intros Ht. destruct c as [type p d | d [[[tag|] p]|] | d [[[tag|] p]|]];
    simpl; first [apply tidy_validateProperties; exact Ht | exact Ht].
Qed.

Lemma tidy_after (cs : list Call) :
  forall h, tidy h -> tidy (after E cs h).
Proof.
  induction cs as [|c rest IH]; intros h Ht; simpl.
  - exact Ht.
  - apply IH. apply tidy_perform. exact Ht.
Qed.

(** Over any sequence of calls made after load, a name is the subject
    of at most one "Did you mean" line, and the combined "Unknown prop"
    message is never written. *)
Lemma warned_at_most_once (cs : list Call) (n : string) :
  (mentioned n (after E cs loaded) <= 1)%nat
  /\ Forall (fun w => perName w = true) (console (after E cs loaded)).
Proof.
  pose proof (tidy_after cs loaded tidy_loaded) as [_ Hc Ho _].
  split; [apply Ho | exact Hc].
Qed.

End AtMostOnce.

(** ** The cache of warned names *)

Section Cache.

Variable E : Externals.

(** While the cache can be asked, a recorded name is answered from the
    cache: true, with the heap untouched. *)
Lemma validateProperty_cached (tagName name : string) (debugID : option nat)
      (h : Heap) :
  askable h ->
  warnedProperties h !! name = Some true ->
  validateProperty E tagName name debugID h = (Normal true, h).
Proof.
  unfold askable. intros Hask Hrec.
  unfold validateProperty, bind, gets, lift, hasOwnProperty. simpl.
  rewrite Hask, Hrec. reflexivity.
Qed.

(** Every name examined is recorded, warning or not; [__proto__] apart,
    which assignment cannot store. *)
Lemma validateProperty_records (tagName name : string) (debugID : option nat)
      (h : Heap) :
  askable h ->
  possibleStandardNames h = possibleStandardNames loaded ->
  name <> "__proto__" ->
  warnedProperties (snd (validateProperty E tagName name debugID h)) !! name
    = Some true.
Proof.
  unfold askable. intros Hask Hnames Hproto.
  rewrite validateProperty_paths by exact Hnames. rewrite Hask.
  destruct (warnedProperties h !! name) as [[|]|] eqn:Hw; simpl;
    try exact Hw;
    repeat match goal with
           | |- context [if ?b then _ else _] => destruct b
           | |- context [match ?x with _ => _ end] => destruct x
           end; simpl; apply assign_records; exact Hproto.
Qed.

(** Examining any name but [hasOwnProperty] leaves the cache askable. *)
Lemma validateProperty_askable (tagName name : string) (debugID : option nat)
      (h : Heap) :
  askable h ->
  name <> "hasOwnProperty" ->
  askable (snd (validateProperty E tagName name debugID h)).
Proof.
  unfold askable. intros Hask Hname.
  assert (assign (warnedProperties h) name true !! "hasOwnProperty" = None) as Hkeep.
  { unfold assign. destruct (String.eqb name "__proto__"); [exact Hask|].
    rewrite lookup_insert_ne; assumption. }
  unfold validateProperty, bind, gets, lift, modify, warning, ret,
    hasOwnProperty, DOMProperty.isReservedProp.
  simpl. rewrite Hask.
  repeat match goal with
         | |- context [if ?b then _ else _] => destruct b; simpl
         | |- context [match ?x with _ => _ end] => destruct x; simpl
         end; assumption.
Qed.

(** A bag without the key [hasOwnProperty], validated on a heap whose
    cache can be asked, is validated to the end. *)
Lemma collectUnknownProps_completes (type : string) (ks : list string)
      (debugID : option nat) :
  forall unknownProps h,
    askable h ->
    possibleStandardNames h = possibleStandardNames loaded ->
    ~ In "hasOwnProperty" ks ->
    fst (collectUnknownProps E type ks debugID unknownProps h) = Normal unknownProps
    /\ askable (snd (collectUnknownProps E type ks debugID unknownProps h)).
Proof.
  induction ks as [|key rest IH]; intros unknownProps h Hask Hnames Hnot; simpl.
  - split; [reflexivity | exact Hask].
  - unfold bind.
    assert (key <> "hasOwnProperty") as Hkey by (intros ->; apply Hnot; left; reflexivity).
    pose proof (validateProperty_askable type key debugID h Hask Hkey) as Hask1.
    pose proof (ev_names _ _ (frames_validateProperty E type key debugID h)) as Hn1.
    pose proof (validateProperty_paths E type key debugID h Hnames) as Hpaths.
    unfold askable in Hask. rewrite Hask in Hpaths.
    assert (fst (validateProperty E type key debugID h) = Normal true) as Hv.
    { rewrite Hpaths.
      repeat match goal with
             | |- context [if ?b then _ else _] => destruct b
             | |- context [match ?x with _ => _ end] => destruct x
             end; reflexivity. }
    destruct (validateProperty E type key debugID h) as [[b|e] h1];
      simpl in *; try discriminate.
    injection Hv as ->.
    apply IH; [exact Hask1 | congruence | tauto].
Qed.

Lemma validateProperties_completes (type : string) (props : Bag)
      (debugID : option nat) (h : Heap) :
  askable h ->
  possibleStandardNames h = possibleStandardNames loaded ->
  ~ In "hasOwnProperty" (keys props) ->
  fst (validateProperties E type props debugID h) = Normal tt.
Proof.
  intros Hask Hnames Hnot. unfold validateProperties.
  destruct (_ || _); [reflexivity|].
  unfold warnUnknownProperties, bind.
  destruct (collectUnknownProps_completes type (keys props) debugID [] h
              Hask Hnames Hnot) as [Hv _].
  destruct (collectUnknownProps E type (keys props) debugID [] h)
    as [[l|e] h1]; simpl in *; try discriminate.
  injection Hv as ->. reflexivity.
Qed.

End Cache.

(** ** The code at particular inputs *)


(** C4.  [CLASS] lower-cases to the alias [class] and [classname],
    [CLASSNAME] lower-case to the same string as the registry name
    [className]; [validateProperty] suggests nothing for any of them: the
    table is looked up with the name as written, and holds no registry
    name.  Only [class] itself gets its suggestion. *)
Theorem validateProperty_miscased_className_unsuggested :
  (toLowerCase "CLASS" = "class"
   /\ possibleStandardNames loaded !! "class" = Some "className"
   /\ toLowerCase "classname" = toLowerCase "className"
   /\ toLowerCase "CLASSNAME" = toLowerCase "className"
   /\ In "className" (map fst DOMProperty.properties))
  /\ validateProperty sampleExternals "div" "CLASS" None loaded
     = (Normal true, record "CLASS" loaded)
  /\ validateProperty sampleExternals "div" "classname" None loaded
     = (Normal true, record "classname" loaded)
  /\ validateProperty sampleExternals "div" "CLASSNAME" None loaded
     = (Normal true, record "CLASSNAME" loaded)
  /\ console (snd (validateProperty sampleExternals "div" "class" None loaded))
     = [ {| format := "Unknown DOM property %s. Did you mean %s?%s";
            args := ["class"; "className"; ""] |} ].
Proof.
  repeat split; try (vm_compute; reflexivity).
  vm_compute. tauto.
Qed.

(** C6.  A [div] with the props [hasOwnProperty] and [foo]: the first key
    is recorded in the cache as an own property [hasOwnProperty], and the
    cache check for the second key calls it: [validateProperties] throws a
    TypeError. *)
Theorem validateProperties_throws_after_hasOwnProperty :
  validateProperties sampleExternals "div"
    [("hasOwnProperty", Str "x"); ("foo", Str "y")] None loaded
  = (Throw (TypeError "hasOwnProperty is not a function"),
     record "hasOwnProperty" loaded).
Proof. vm_compute. reflexivity. Qed.

(** C3.  After a call that validated [class] and [hasOwnProperty], [class]
    is recorded in the cache (and was warned about once); the next call
    that validates [class] does not return: it throws. *)
Theorem recorded_name_later_validation_throws :
  let h1 := after sampleExternals
              [CallValidateProperties "div"
                 [("class", Str "a"); ("hasOwnProperty", Str "b")] None]
              loaded in
  warnedProperties h1 !! "class" = Some true
  /\ mentioned "class" h1 = 1%nat
  /\ fst (validateProperties sampleExternals "div" [("class", Str "a")] None h1)
     = Throw (TypeError "hasOwnProperty is not a function")
  /\ fst (validateProperty sampleExternals "div" "class" None h1)
     = Throw (TypeError "hasOwnProperty is not a function").
Proof. repeat split; vm_compute; reflexivity. Qed.

(** C9.  [validateProperty] on the name [hasOwnProperty] records it and
    answers true; the repeated call with the same name throws instead of
    answering true.  And [__proto__] is examined without being recorded. *)
Theorem repeated_validateProperty_hasOwnProperty_throws :
  let first := validateProperty sampleExternals "div" "hasOwnProperty" None loaded in
  fst first = Normal true
  /\ warnedProperties (snd first) !! "hasOwnProperty" = Some true
  /\ fst (validateProperty sampleExternals "div" "hasOwnProperty" None (snd first))
     = Throw (TypeError "hasOwnProperty is not a function")
  /\ warnedProperties
       (snd (validateProperty sampleExternals "div" "__proto__" None loaded))
     !! "__proto__" = None.
Proof. repeat split; vm_compute; reflexivity. Qed.

(** C7.  The call [validateProperties("div", {hasOwnProperty: "x"})]
    leaves [RESERVED_PROPS] and [properties] as they were, but it changes
    what [validateProperty] does for [id], a name it did not validate:
    true before the call, a TypeError after it. *)
Theorem validateProperties_changes_other_names :
  let call := validateProperties sampleExternals "div"
                [("hasOwnProperty", Str "x")] None loaded in
  fst call = Normal tt
  /\ reservedProps (snd call) = reservedProps loaded
  /\ registry (snd call) = registry loaded
  /\ ~ In "id" (keys [("hasOwnProperty", Str "x")])
  /\ fst (validateProperty sampleExternals "div" "id" None loaded) = Normal true
  /\ fst (validateProperty sampleExternals "div" "id" None (snd call))
     = Throw (TypeError "hasOwnProperty is not a function").
Proof.
  repeat split; try (vm_compute; reflexivity).
  simpl. intros [H|[]]. discriminate H.
Qed.

(** ** More on [validateProperty] *)

Section Answers.

Variable E : Externals.

Ltac split_paths :=
  repeat match goal with
         | |- context [if ?b then _ else _] => destruct b; simpl
         | |- context [match ?x with _ => _ end] => destruct x; simpl
         end.

(** What one call adds to the console, on any heap: nothing, or one line
    about the name it was called with. *)
Lemma validateProperty_console (tagName name : string) (debugID : option nat)
      (h : Heap) :
  console (snd (validateProperty E tagName name debugID h)) = console h
  \/ exists w, console (snd (validateProperty E tagName name debugID h))
               = (console h ++ [w])%list
               /\ perName w = true /\ hd_error (args w) = Some name.
Proof.
  unfold validateProperty, bind, gets, lift, modify, warning, ret,
    hasOwnProperty, DOMProperty.isReservedProp.
  simpl. split_paths;
    first [ left; reflexivity
          | right; eexists; split; [reflexivity | split; reflexivity] ].
Qed.

(** What one call adds to the cache, on any heap: at most the name it was
    called with. *)
Lemma validateProperty_dom (tagName name : string) (debugID : option nat)
      (h : Heap) :
  dom (warnedProperties (snd (validateProperty E tagName name debugID h)))
    ⊆ dom (warnedProperties h) ∪ {[ name ]}.
Proof.
  assert (dom (assign (warnedProperties h) name true)
            ⊆ dom (warnedProperties h) ∪ {[ name ]}) as Hassign.
  { unfold assign. destruct (String.eqb name "__proto__").
    - apply union_subseteq_l.
    - rewrite dom_insert_L. rewrite (comm_L union). reflexivity. }
  unfold validateProperty, bind, gets, lift, modify, warning, ret,
    hasOwnProperty, DOMProperty.isReservedProp.
  simpl. split_paths; first [exact Hassign | apply union_subseteq_l].
Qed.

(** X1.  Whatever the environment, the tag, the name and the heap,
    [validateProperty] answers true or throws the TypeError of a shadowed
    [hasOwnProperty]; it never answers false. *)
Theorem validateProperty_answers_true_or_TypeError
        (tagName name : string) (debugID : option nat) (h : Heap) :
  fst (validateProperty E tagName name debugID h) = Normal true
  \/ fst (validateProperty E tagName name debugID h)
     = Throw (TypeError "hasOwnProperty is not a function").
Proof.
  unfold validateProperty, bind, gets, lift, modify, warning, ret,
    hasOwnProperty.
  simpl.
  destruct (warnedProperties h !! "hasOwnProperty"); [right; reflexivity|].
  destruct (bool_decide (is_Some (warnedProperties h !! name)) &&
            default false (warnedProperties h !! name)); [left; reflexivity|].
  destruct (bool_decide (name ∈ registrationNameModules E)); [left; reflexivity|].
  destruct (possibleRegistrationNames E !! toLowerCase name); [left; reflexivity|].
  simpl.
  destruct (possibleStandardNames h !! "hasOwnProperty"); [right; reflexivity|].
  destruct (bool_decide (is_Some (possibleStandardNames h !! name))); simpl.
  - destruct (possibleStandardNames h !! name) as [s|]; simpl.
    + destruct (String.eqb s name); left; reflexivity.
    + left; reflexivity.
  - left; reflexivity.
Qed.

(** X2.  A registration name of the event registry is never warned about,
    on any heap. *)
Theorem registration_name_is_silent
        (tagName name : string) (debugID : option nat) (h : Heap) :
  name ∈ registrationNameModules E ->
  console (snd (validateProperty E tagName name debugID h)) = console h.
Proof.
  intros Hreg.
  unfold validateProperty, bind, gets, lift, modify, warning, ret,
    hasOwnProperty.
  simpl.
  destruct (warnedProperties h !! "hasOwnProperty"); [reflexivity|].
  destruct (_ && _); [reflexivity|].
  rewrite bool_decide_eq_true_2 by exact Hreg. reflexivity.
Qed.

(** X3.  A name that is not yet recorded, is no registration name, but
    lower-cases to a key of [possibleRegistrationNames], gets exactly the
    event-handler line with the registered spelling, is recorded, and is
    answered true; the alias table is not consulted. *)
Theorem miscased_event_handler_is_suggested
        (tagName name registrationName : string) (debugID : option nat)
        (h : Heap) :
  askable h ->
  warnedProperties h !! name <> Some true ->
  name ∉ registrationNameModules E ->
  possibleRegistrationNames E !! toLowerCase name = Some registrationName ->
  validateProperty E tagName name debugID h =
    (Normal true,
     log {| format := "Unknown event handler property %s. Did you mean `%s`?%s";
            args := [name; registrationName; getStackAddendum E debugID] |}
         (record name h)).
Proof.
  unfold askable. intros Hask Hfresh Hreg Hlow.
  unfold validateProperty, bind, gets, lift, modify, warning, ret,
    hasOwnProperty.
  simpl. rewrite Hask.
  assert (bool_decide (is_Some (warnedProperties h !! name)) &&
          default false (warnedProperties h !! name) = false) as ->.
  { destruct (warnedProperties h !! name) as [[|]|]; try reflexivity.
    congruence. }
  rewrite bool_decide_eq_false_2 by exact Hreg.
  rewrite Hlow. reflexivity.
Qed.


End Answers.

Lemma registration_name_is_silent_witness :
  console (snd (validateProperty sampleExternals "div" "onClick" None loaded)) = [].
Proof.
  apply (registration_name_is_silent sampleExternals "div" "onClick" None loaded).
  vm_compute. reflexivity.
Defined.

Lemma miscased_event_handler_is_suggested_witness :
  validateProperty sampleExternals "div" "onclick" None loaded =
    (Normal true,
     log {| format := "Unknown event handler property %s. Did you mean `%s`?%s";
            args := ["onclick"; "onClick"; ""] |}
         (record "onclick" loaded)).
Proof.
  apply (miscased_event_handler_is_suggested
           sampleExternals "div" "onclick" "onClick" None loaded).
  - reflexivity.
  - vm_compute. discriminate.
  - vm_compute. intros H. inversion H.
  - vm_compute. reflexivity.
Defined.


(** ** More on the cache and on sequences of calls *)

Section Sequences.

Variable E : Externals.

Lemma frames_perform (c : Call) : frames (perform E c).
Proof.
  destruct c; simpl;
    [ apply frames_validateProperties
    | apply frames_onBeforeMountComponent
    | apply frames_onBeforeUpdateComponent ].
Qed.

Lemma evolves_after (cs : list Call) :
  forall h, evolves h (after E cs h).
Proof.
  induction cs as [|c rest IH]; intros h; simpl.
  - apply evolves_refl.
  - eapply evolves_trans; [apply frames_perform | apply IH].
Qed.

(** X5.  While the cache can be asked, a name recorded in it is answered
    from the cache: true, with no line written and the heap as it was. *)
Theorem recorded_name_is_answered_from_cache
        (tagName name : string) (debugID : option nat) (h : Heap) :
  askable h ->
  warnedProperties h !! name = Some true ->
  validateProperty E tagName name debugID h = (Normal true, h).
Proof. apply validateProperty_cached. Qed.

(** X6.  While the cache can be asked and the alias table is the loaded
    one, every name handed to [validateProperty] other than [__proto__] is
    in the cache afterwards, with value true, whether a line was written
    about it or not. *)
Theorem examined_name_is_recorded
        (tagName name : string) (debugID : option nat) (h : Heap) :
  askable h ->
  possibleStandardNames h = possibleStandardNames loaded ->
  name <> "__proto__" ->
  warnedProperties (snd (validateProperty E tagName name debugID h)) !! name
    = Some true.
Proof. apply validateProperty_records. Qed.

(** X7.  Once the cache has an own property [hasOwnProperty], every call
    of [validateProperty] throws the TypeError and leaves the heap alone,
    and no later sequence of calls repairs the cache. *)
Theorem shadowed_cache_throws_forever
        (h : Heap) (cs : list Call) (tagName name : string)
        (debugID : option nat) :
  is_Some (warnedProperties h !! "hasOwnProperty") ->
  validateProperty E tagName name debugID (after E cs h) =
    (Throw (TypeError "hasOwnProperty is not a function"), after E cs h).
Proof.
  intros Hshadow.
  assert (is_Some (warnedProperties (after E cs h) !! "hasOwnProperty")) as [b Hb].
  { apply elem_of_dom. apply (ev_cache _ _ (evolves_after cs h)).
    apply elem_of_dom. exact Hshadow. }
  unfold validateProperty, bind, gets, lift, hasOwnProperty. simpl.
  rewrite Hb. reflexivity.
Qed.

Lemma collectUnknownProps_dom (type : string) (ks : list string)
      (debugID : option nat) :
  forall unknownProps h,
    dom (warnedProperties (snd (collectUnknownProps E type ks debugID unknownProps h)))
      ⊆ dom (warnedProperties h) ∪ list_to_set ks.
Proof.
  induction ks as [|key rest IH]; intros unknownProps h; simpl.
  - apply union_subseteq_l.
  - unfold bind.
    pose proof (validateProperty_dom E type key debugID h) as Hone.
    destruct (validateProperty E type key debugID h) as [[b|e] h1]; simpl in *.
    + etransitivity; [apply IH|]. apply union_least.
      * etransitivity; [exact Hone|]. apply union_mono_l, union_subseteq_l.
      * etransitivity; [|apply union_subseteq_r]. apply union_subseteq_r.
    + etransitivity; [exact Hone|]. apply union_mono_l, union_subseteq_l.
Qed.

(** X8.  A call of [validateProperties] adds to the cache no name other
    than the keys of the bag it was given, on any heap and however it
    completes. *)
Theorem only_validated_names_enter_cache
        (type : string) (props : Bag) (debugID : option nat) (h : Heap) :
  dom (warnedProperties (snd (validateProperties E type props debugID h)))
    ⊆ dom (warnedProperties h) ∪ list_to_set (keys props).
Proof.
  unfold validateProperties.
  destruct (_ || _); simpl; [apply union_subseteq_l|].
  unfold warnUnknownProperties, bind.
  pose proof (collectUnknownProps_dom type (keys props) debugID [] h) as Hdom.
  destruct (collectUnknownProps_adds_nothing E type (keys props) debugID [] h)
    as [Hv | [e He]];
    destruct (collectUnknownProps E type (keys props) debugID [] h)
      as [[l|e'] h1]; simpl in *; try discriminate; try exact Hdom.
  injection Hv as ->. exact Hdom.
Qed.

End Sequences.

Lemma recorded_name_is_answered_from_cache_witness :
  validateProperty sampleExternals "div" "class" None (record "class" loaded)
  = (Normal true, record "class" loaded).
Proof.
  apply (recorded_name_is_answered_from_cache sampleExternals "div" "class" None).
  - reflexivity.
  - reflexivity.
Defined.

Lemma examined_name_is_recorded_witness :
  warnedProperties (snd (validateProperty sampleExternals "div" "title" None loaded))
    !! "title" = Some true.
Proof.
  apply (examined_name_is_recorded sampleExternals "div" "title" None loaded).
  - reflexivity.
  - reflexivity.
  - discriminate.
Defined.

Lemma shadowed_cache_throws_forever_witness :
  validateProperty sampleExternals "div" "id" None
    (after sampleExternals
       [CallValidateProperties "span" [("title", Str "t")] None]
       (record "hasOwnProperty" loaded))
  = (Throw (TypeError "hasOwnProperty is not a function"),
     after sampleExternals
       [CallValidateProperties "span" [("title", Str "t")] None]
       (record "hasOwnProperty" loaded)).
Proof.
  apply (shadowed_cache_throws_forever sampleExternals
           (record "hasOwnProperty" loaded)).
  vm_compute. eauto.
Defined.

(** ** More on [validateProperties] *)

Section Batches.

Variable E : Externals.

Lemma lineAbout_weaken (key : string) (ks : list string) (w : Warning) :
  lineAbout ks w -> lineAbout (key :: ks) w.
Proof.
  intros [Hper (k & Hin & Hhd)]. split; [exact Hper|].
  exists k. split; [right; exact Hin | exact Hhd].
Qed.

Lemma collectUnknownProps_console (type : string) (ks : list string)
      (debugID : option nat) :
  forall unknownProps h,
  exists new,
    console (snd (collectUnknownProps E type ks debugID unknownProps h))
      = (console h ++ new)%list
    /\ (length new <= length ks)%nat
    /\ Forall (lineAbout ks) new.
Proof.
  induction ks as [|key rest IH]; intros unknownProps h; simpl.
  - exists []. rewrite app_nil_r. repeat split; [simpl; lia | constructor].
  - unfold bind.
    pose proof (validateProperty_console E type key debugID h) as Hone.
    destruct (validateProperty E type key debugID h) as [[b|e] h1]; simpl in *.
    + destruct (IH (if b then unknownProps else (unknownProps ++ [key])%list) h1)
        as (new & Hnew & Hlen & Hall).
      destruct Hone as [Hsame | (w & Hw & Hper & Hhd)].
      * exists new. rewrite Hnew, Hsame. repeat split; [simpl; lia|].
        eapply Forall_impl; [exact Hall|]. intros w. apply lineAbout_weaken.
      * exists (w :: new). rewrite Hnew, Hw, <- app_assoc. simpl.
        repeat split; [simpl; lia|]. constructor.
        -- split; [exact Hper|]. exists key. split; [left; reflexivity | exact Hhd].
        -- eapply Forall_impl; [exact Hall|]. intros w'. apply lineAbout_weaken.
    + destruct Hone as [Hsame | (w & Hw & Hper & Hhd)].
      * exists []. rewrite app_nil_r. repeat split; [exact Hsame | simpl; lia | constructor].
      * exists [w]. repeat split; [exact Hw | simpl; lia |].
        constructor; [|constructor].
        split; [exact Hper|]. exists key. split; [left; reflexivity | exact Hhd].
Qed.

(** X9.  On any heap and however it completes, [validateProperties] only
    appends to the console, at most one line per key of the bag; each line
    is a "Did you mean" line of [validateProperty] about one of the keys.
    The combined "Unknown prop(s)" message is never among them. *)
Theorem validateProperties_writes_per_key_lines_only
        (type : string) (props : Bag) (debugID : option nat) (h : Heap) :
  exists new,
    console (snd (validateProperties E type props debugID h))
      = (console h ++ new)%list
    /\ (length new <= length (keys props))%nat
    /\ Forall (lineAbout (keys props)) new.
Proof.
  unfold validateProperties.
  destruct (_ || _); simpl.
  - exists []. rewrite app_nil_r. repeat split; [simpl; lia | constructor].
  - unfold warnUnknownProperties, bind.
    pose proof (collectUnknownProps_console type (keys props) debugID [] h) as Hlines.
    destruct (collectUnknownProps_adds_nothing E type (keys props) debugID [] h)
      as [Hv | [e He]];
      destruct (collectUnknownProps E type (keys props) debugID [] h)
        as [[l|e'] h1]; simpl in *; try discriminate; try exact Hlines.
    injection Hv as ->. exact Hlines.
Qed.

Lemma collectUnknownProps_ignores_type (type1 type2 : string) (ks : list string)
      (debugID : option nat) :
  forall unknownProps h,
    collectUnknownProps E type1 ks debugID unknownProps h
    = collectUnknownProps E type2 ks debugID unknownProps h.
Proof.
  induction ks as [|key rest IH]; intros unknownProps h; simpl.
  - reflexivity.
  - unfold bind.
    change (validateProperty E type2 key debugID h)
      with (validateProperty E type1 key debugID h).
    destruct (validateProperty E type1 key debugID h) as [[b|e] h1];
      [apply IH | reflexivity].
Qed.

(** X10.  Which standard tag a bag sits on makes no difference: for two
    tag names without a hyphen, [validateProperties] completes the same
    way and leaves the same heap, console included. *)
Theorem standard_tags_are_interchangeable
        (type1 type2 : string) (props : Bag) (debugID : option nat) (h : Heap) :
  indexOf type1 "-" < 0 ->
  indexOf type2 "-" < 0 ->
  validateProperties E type1 props debugID h
  = validateProperties E type2 props debugID h.
Proof.
  intros H1 H2. unfold validateProperties.
  apply Z.leb_gt in H1. apply Z.leb_gt in H2. rewrite H1, H2. simpl.
  destruct (ToBoolean (get props "is")); [reflexivity|].
  unfold warnUnknownProperties, bind.
  rewrite (collectUnknownProps_ignores_type type1 type2).
  destruct (collectUnknownProps_adds_nothing E type2 (keys props) debugID [] h)
    as [Hv | [e He]];
    destruct (collectUnknownProps E type2 (keys props) debugID [] h)
      as [[l|e'] h1]; simpl in *; try discriminate; try reflexivity.
  injection Hv as ->. reflexivity.
Qed.

Lemma sound_perform (c : Call) (h : Heap) :
  sound h ->
  ~ In "hasOwnProperty" (callKeys c) ->
  fst (perform E c h) = Normal tt /\ sound (snd (perform E c h)).
Proof.
  intros [Hask Hnames] Hnot.
  assert (forall type props debugID,
             ~ In "hasOwnProperty" (keys props) ->
             fst (validateProperties E type props debugID h) = Normal tt
             /\ sound (snd (validateProperties E type props debugID h))) as Hvp.
  { intros type props debugID Hk. split.
    - apply validateProperties_completes; assumption.
    - split.
      + unfold validateProperties. destruct (_ || _); [exact Hask|].
        unfold warnUnknownProperties, bind.
        destruct (collectUnknownProps_completes E type (keys props) debugID [] h
                    Hask Hnames Hk) as [Hv Hask1].
        destruct (collectUnknownProps E type (keys props) debugID [] h)
          as [[l|e] h1]; simpl in *; try discriminate.
        injection Hv as ->. exact Hask1.
      + rewrite <- Hnames.
        apply (ev_names _ _ (frames_validateProperties E type props debugID h)). }
  destruct c as [type p d | d [[[tag|] p]|] | d [[[tag|] p]|]]; simpl in *;
    first [ apply Hvp; exact Hnot | split; [reflexivity | split; assumption] ].
Qed.

Lemma sound_after (cs : list Call) :
  forall h,
    sound h ->
    (forall c, In c cs -> ~ In "hasOwnProperty" (callKeys c)) ->
    sound (after E cs h).
Proof.
  induction cs as [|c rest IH]; intros h Hs Hall; simpl.
  - exact Hs.
  - apply IH.
    + apply sound_perform; [exact Hs | apply Hall; left; reflexivity].
    + intros c' Hin. apply Hall. right. exact Hin.
Qed.

Lemma sound_loaded : sound loaded.
Proof. split; reflexivity. Qed.

(** X11.  In a sequence of calls made after load in which no bag has the
    key [hasOwnProperty], every call completes normally. *)
Theorem calls_complete_without_hasOwnProperty_key
        (before : list Call) (c : Call) (rest : list Call) :
  (forall c', In c' (before ++ c :: rest) -> ~ In "hasOwnProperty" (callKeys c')) ->
  fst (perform E c (after E before loaded)) = Normal tt.
Proof.
  intros Hall.
  apply sound_perform.
  - apply sound_after; [apply sound_loaded|].
    intros c' Hin. apply Hall. apply in_or_app. left. exact Hin.
  - apply Hall. apply in_or_app. right. left. reflexivity.
Qed.

End Batches.

Lemma standard_tags_are_interchangeable_witness :
  validateProperties sampleExternals "div" [("class", Str "a")] None loaded
  = validateProperties sampleExternals "span" [("class", Str "a")] None loaded.
Proof.
  apply (standard_tags_are_interchangeable sampleExternals "div" "span").
  - reflexivity.
  - reflexivity.
Defined.

Lemma calls_complete_without_hasOwnProperty_key_witness :
  fst (perform sampleExternals
         (CallValidateProperties "div" [("class", Str "a"); ("toString", Str "b")] None)
         (after sampleExternals
            [CallOnBeforeMountComponent (Some 1%nat)
               (Some {| type := HostTag "input"; props := [("valueOf", Str "v")] |})]
            loaded))
  = Normal tt.
Proof.
  apply (calls_complete_without_hasOwnProperty_key sampleExternals
           [CallOnBeforeMountComponent (Some 1%nat)
              (Some {| type := HostTag "input"; props := [("valueOf", Str "v")] |})]
           (CallValidateProperties "div" [("class", Str "a"); ("toString", Str "b")] None)
           []).
  intros c' Hin Hkey. simpl in Hin.
  destruct Hin as [<- | [<- | []]]; simpl in Hkey;
    repeat (destruct Hkey as [Hkey|Hkey]; [discriminate Hkey|]); exact Hkey.
Defined.

Section Repeats.

Variable E : Externals.

Lemma validateProperty_keeps_recorded (tagName name n : string)
      (debugID : option nat) (h : Heap) :
  warnedProperties h !! n = Some true ->
  warnedProperties (snd (validateProperty E tagName name debugID h)) !! n
    = Some true.
Proof.
  intros Hn.
  pose proof (assign_keeps_true (warnedProperties h) name n Hn) as Hkeep.
  unfold validateProperty, bind, gets, lift, modify, warning, ret,
    hasOwnProperty, DOMProperty.isReservedProp.
  simpl.
  repeat match goal with
         | |- context [if ?b then _ else _] => destruct b; simpl
         | |- context [match ?x with _ => _ end] => destruct x; simpl
         end; assumption.
Qed.

Lemma collectUnknownProps_keeps_recorded (type : string) (ks : list string)
      (debugID : option nat) (n : string) :
  forall unknownProps h,
    warnedProperties h !! n = Some true ->
    warnedProperties (snd (collectUnknownProps E type ks debugID unknownProps h)) !! n
      = Some true.
Proof.
  induction ks as [|key rest IH]; intros unknownProps h Hn; simpl.
  - exact Hn.
  - unfold bind.
    pose proof (validateProperty_keeps_recorded type key n debugID h Hn) as Hn1.
    destruct (validateProperty E type key debugID h) as [[b|e] h1]; simpl in *.
    + apply IH. exact Hn1.
    + exact Hn1.
Qed.

Lemma collectUnknownProps_records_all (type : string) (ks : list string)
      (debugID : option nat) :
  forall unknownProps h,
    sound h ->
    ~ In "hasOwnProperty" ks ->
    ~ In "__proto__" ks ->
    forall key, In key ks ->
      warnedProperties (snd (collectUnknownProps E type ks debugID unknownProps h)) !! key
        = Some true.
Proof.
  induction ks as [|k rest IH]; intros unknownProps h [Hask Hnames] Hown Hproto key Hin.
  - destruct Hin.
  - simpl. unfold bind.
    assert (k <> "hasOwnProperty") as Hk1 by (intros ->; apply Hown; left; reflexivity).
    assert (k <> "__proto__") as Hk2 by (intros ->; apply Hproto; left; reflexivity).
    pose proof (validateProperty_records E type k debugID h Hask Hnames Hk2) as Hrec.
    pose proof (validateProperty_askable E type k debugID h Hask Hk1) as Hask1.
    pose proof (ev_names _ _ (frames_validateProperty E type k debugID h)) as Hn1.
    assert (~ In "hasOwnProperty" [k]) as Hsingle
        by (intros [Hk|[]]; congruence).
    destruct (collectUnknownProps_completes E type [k] debugID unknownProps h
                Hask Hnames Hsingle) as [Hv _].
    simpl in Hv. unfold bind in Hv.
    destruct (validateProperty E type k debugID h) as [[b|e] h1];
      simpl in *; try discriminate.
    destruct Hin as [<- | Hin].
    + apply collectUnknownProps_keeps_recorded. exact Hrec.
    + apply IH; try tauto. split; [exact Hask1|].
      transitivity (possibleStandardNames h); [exact Hn1 | exact Hnames].
Qed.

Lemma collectUnknownProps_all_recorded (type : string) (ks : list string)
      (debugID : option nat) :
  forall unknownProps h,
    askable h ->
    (forall key, In key ks -> warnedProperties h !! key = Some true) ->
    collectUnknownProps E type ks debugID unknownProps h = (Normal unknownProps, h).
Proof.
  induction ks as [|k rest IH]; intros unknownProps h Hask Hall; simpl.
  - reflexivity.
  - unfold bind.
    rewrite validateProperty_cached; [|exact Hask | apply Hall; left; reflexivity].
    apply IH; [exact Hask|]. intros key Hin. apply Hall. right. exact Hin.
Qed.

(** X12.  Validating the same bag on the same tag a second time is
    silent: when the first call starts on a heap whose cache can be asked
    and whose alias table is the loaded one, and no key is [hasOwnProperty]
    or [__proto__], the second call completes normally and leaves the heap
    of the first exactly as it is, whatever the debug identifiers. *)
Theorem second_validation_is_silent
        (type : string) (props : Bag) (debugID debugID' : option nat) (h : Heap) :
  askable h ->
  possibleStandardNames h = possibleStandardNames loaded ->
  ~ In "hasOwnProperty" (keys props) ->
  ~ In "__proto__" (keys props) ->
  validateProperties E type props debugID'
    (snd (validateProperties E type props debugID h))
  = (Normal tt, snd (validateProperties E type props debugID h)).
Proof.
  intros Hask Hnames Hown Hproto.
  unfold validateProperties.
  destruct (_ || _); [reflexivity|].
  unfold warnUnknownProperties, bind.
  destruct (collectUnknownProps_completes E type (keys props) debugID [] h
              Hask Hnames Hown) as [Hv Hask1].
  pose proof (collectUnknownProps_records_all type (keys props) debugID [] h
                (conj Hask Hnames) Hown Hproto) as Hrec.
  destruct (collectUnknownProps E type (keys props) debugID [] h)
    as [[l|e] h1]; simpl in *; try discriminate.
  injection Hv as ->. simpl.
  rewrite collectUnknownProps_all_recorded by assumption.
  reflexivity.
Qed.

Lemma isReservedProp_on_table (h : Heap) (name : string) :
  reservedProps h = DOMProperty.RESERVED_PROPS ->
  DOMProperty.isReservedProp name h =
    (Normal (bool_decide (is_Some (DOMProperty.RESERVED_PROPS !! name))), h).
Proof.
  intros Hres.
  unfold DOMProperty.isReservedProp, bind, gets, lift, hasOwnProperty.
  rewrite Hres, RESERVED_PROPS_hasOwnProperty_callable. reflexivity.
Qed.

(** X13.  No sequence of calls changes what [isReservedProp] answers:
    after any calls made after load, and however they completed, it still
    answers by own-key membership in the reserved props as written in the
    source, and [DOMProperty.properties] is still the table of the source. *)
Theorem isReservedProp_unaffected_by_validation (cs : list Call) (name : string) :
  DOMProperty.isReservedProp name (after E cs loaded) =
    (Normal (bool_decide (is_Some (DOMProperty.RESERVED_PROPS !! name))),
     after E cs loaded)
  /\ registry (after E cs loaded) = DOMProperty.properties.
Proof.
  pose proof (evolves_after E cs loaded) as Hev.
  split.
  - apply isReservedProp_on_table. apply (ev_reserved _ _ Hev).
  - apply (ev_registry _ _ Hev).
Qed.

(** X14.  When the table of lower-cased registration names has no own key
    [__proto__], then over any sequence of calls made after load a name is
    the subject of at most one "Did you mean" line, and every line on the
    console is such a line. *)
Theorem each_name_warned_at_most_once (cs : list Call) (n : string) :
  possibleRegistrationNames E !! "__proto__" = None ->
  (mentioned n (after E cs loaded) <= 1)%nat
  /\ Forall (fun w => perName w = true) (console (after E cs loaded)).
Proof.
  intros Hplain. apply warned_at_most_once. exact Hplain.
Qed.

End Repeats.

Lemma second_validation_is_silent_witness :
  validateProperties sampleExternals "div"
    [("class", Str "a"); ("onclick", Str "f")] (Some 7%nat)
    (snd (validateProperties sampleExternals "div"
            [("class", Str "a"); ("onclick", Str "f")] None loaded))
  = (Normal tt,
     snd (validateProperties sampleExternals "div"
            [("class", Str "a"); ("onclick", Str "f")] None loaded)).
Proof.
  apply (second_validation_is_silent sampleExternals "div"
           [("class", Str "a"); ("onclick", Str "f")] None (Some 7%nat) loaded).
  - reflexivity.
  - reflexivity.
  - simpl. intros H.
    repeat (destruct H as [H|H]; [discriminate H|]). exact H.
  - simpl. intros H.
    repeat (destruct H as [H|H]; [discriminate H|]). exact H.
Defined.

Lemma each_name_warned_at_most_once_witness :
  (mentioned "class"
     (after sampleExternals
        [ CallValidateProperties "div" [("class", Str "a")] None;
          CallValidateProperties "span" [("class", Str "b")] None ]
        loaded) <= 1)%nat
  /\ Forall (fun w => perName w = true)
       (console
          (after sampleExternals
             [ CallValidateProperties "div" [("class", Str "a")] None;
               CallValidateProperties "span" [("class", Str "b")] None ]
             loaded)).
Proof.
  apply (each_name_warned_at_most_once sampleExternals).
  vm_compute. reflexivity.
Defined.

(** ** More on the registry *)

Lemma registry_forall (P : string -> AttributeDescriptor -> bool) :
  forallb (fun p => P (fst p) (snd p)) DOMProperty.properties = true ->
  forall name d, In (name, d) DOMProperty.properties -> P name d = true.
Proof.
  intros Hall name d Hin.
  rewrite forallb_forall in Hall. exact (Hall (name, d) Hin).
Qed.

(** X15.  No canonical name occurs twice among the keys of
    [DOMProperty.properties], and no two entries share an attribute name:
    the registry maps names to attributes one to one. *)
Theorem registry_names_and_attributes_unique :
  NoDup (map fst DOMProperty.properties)
  /\ NoDup (map (fun p => attributeName (snd p)) DOMProperty.properties).
Proof.
  split; apply (bool_decide_unpack _); vm_compute; exact I.
Qed.

(** X16.  Every descriptor of the registry declares at most one kind of
    value (boolean, numeric or overloaded boolean), and those that must be
    set as a property are all boolean. *)
Theorem registry_value_kinds (name : string) (d : AttributeDescriptor) :
  In (name, d) DOMProperty.properties ->
  (valueKinds d <= 1)%nat
  /\ (mustUseProperty d = true -> hasBooleanValue d = true).
Proof.
  intros Hin.
  pose proof (registry_forall
                (fun _ d => (valueKinds d <=? 1)%nat
                            && implb (mustUseProperty d) (hasBooleanValue d))
                ltac:(vm_compute; reflexivity) name d Hin) as Hd.
  simpl in Hd. apply andb_true_iff in Hd. destruct Hd as [Hk Hm].
  split.
  - apply Nat.leb_le. exact Hk.
  - intros Hmust. rewrite Hmust in Hm. exact Hm.
Qed.

Lemma registry_value_kinds_witness :
  (valueKinds (attr "checked" [MustUseProperty; HasBooleanValue]) <= 1)%nat
  /\ (mustUseProperty (attr "checked" [MustUseProperty; HasBooleanValue]) = true ->
      hasBooleanValue (attr "checked" [MustUseProperty; HasBooleanValue]) = true).
Proof.
  apply (registry_value_kinds "checked").
  unfold DOMProperty.properties.
  repeat first [ left; reflexivity | right ].
Defined.

(** X17.  In the registry an attribute is in the XLink namespace exactly
    when its name starts with [xlink:], in the XML namespace exactly when
    it starts with [xml:], and in no namespace otherwise. *)
Theorem registry_namespaces (name : string) (d : AttributeDescriptor) :
  In (name, d) DOMProperty.properties ->
  (attributeNamespace d = xlink <-> String.prefix "xlink:" (attributeName d) = true)
  /\ (attributeNamespace d = xml <-> String.prefix "xml:" (attributeName d) = true)
  /\ (attributeNamespace d = None \/ attributeNamespace d = xlink
      \/ attributeNamespace d = xml).
Proof.
  intros Hin.
  pose proof (registry_forall
                (fun _ d =>
                   match attributeNamespace d with
                   | None => negb (String.prefix "xlink:" (attributeName d))
                             && negb (String.prefix "xml:" (attributeName d))
                   | Some ns =>
                       (String.eqb ns "http://www.w3.org/1999/xlink"
                        && String.prefix "xlink:" (attributeName d)
                        && negb (String.prefix "xml:" (attributeName d)))
                       || (String.eqb ns "http://www.w3.org/XML/1998/namespace"
                           && String.prefix "xml:" (attributeName d)
                           && negb (String.prefix "xlink:" (attributeName d)))
                   end)
                ltac:(vm_compute; reflexivity) name d Hin) as Hd.
  simpl in Hd. unfold xlink, xml.
  destruct (attributeNamespace d) as [ns|].
  - apply orb_true_iff in Hd.
    destruct Hd as [Hd|Hd];
      repeat (apply andb_true_iff in Hd; destruct Hd as [Hd ?]);
      apply String.eqb_eq in Hd; subst ns;
      match goal with H : negb _ = true |- _ => apply negb_true_iff in H end;
      repeat split; intros; try congruence; auto.
  - apply andb_true_iff in Hd. destruct Hd as [H1 H2].
    apply negb_true_iff in H1. apply negb_true_iff in H2.
    repeat split; intros; try congruence; auto.
Qed.

Lemma registry_namespaces_witness :
  (attributeNamespace (entry "xlink:href" xlink None []) = xlink
   <-> String.prefix "xlink:" (attributeName (entry "xlink:href" xlink None [])) = true)
  /\ (attributeNamespace (entry "xlink:href" xlink None []) = xml
      <-> String.prefix "xml:" (attributeName (entry "xlink:href" xlink None [])) = true)
  /\ (attributeNamespace (entry "xlink:href" xlink None []) = None
      \/ attributeNamespace (entry "xlink:href" xlink None []) = xlink
      \/ attributeNamespace (entry "xlink:href" xlink None []) = xml).
Proof.
  apply (registry_namespaces "xlinkHref").
  unfold DOMProperty.properties.
  repeat first [ left; reflexivity | right ].
Defined.

(** X18.  Except for [className] and [htmlFor], the attribute name of a
    registry entry is its canonical name up to letter case once hyphens
    and colons are dropped. *)
Theorem registry_attribute_name_follows_canonical_name
        (name : string) (d : AttributeDescriptor) :
  In (name, d) DOMProperty.properties ->
  name <> "className" ->
  name <> "htmlFor" ->
  toLowerCase (dropSeparators (attributeName d)) = toLowerCase name.
Proof.
  intros Hin Hclass Hfor.
  pose proof (registry_forall
                (fun name d =>
                   String.eqb name "className" || String.eqb name "htmlFor"
                   || String.eqb (toLowerCase (dropSeparators (attributeName d)))
                                 (toLowerCase name))
                ltac:(vm_compute; reflexivity) name d Hin) as Hd.
  simpl in Hd.
  apply String.eqb_neq in Hclass. apply String.eqb_neq in Hfor.
  rewrite Hclass, Hfor in Hd. simpl in Hd.
  apply String.eqb_eq. exact Hd.
Qed.

Lemma registry_attribute_name_follows_canonical_name_witness :
  toLowerCase (dropSeparators (attributeName (entry "xlink:href" xlink None [])))
  = toLowerCase "xlinkHref".
Proof.
  apply (registry_attribute_name_follows_canonical_name "xlinkHref").
  - unfold DOMProperty.properties.
    repeat first [ left; reflexivity | right ].
  - discriminate.
  - discriminate.
Defined.

Lemma registry_disjoint_from_reserved :
  forallb (fun p => negb (bool_decide
                            (is_Some (DOMProperty.RESERVED_PROPS !! fst p))))
          DOMProperty.properties = true.
Proof. vm_compute. reflexivity. Qed.

(** X19.  No name of the registry is a reserved prop: [isReservedProp]
    answers false for every key of [DOMProperty.properties]. *)
Theorem registry_names_are_not_reserved (name : string) (d : AttributeDescriptor) :
  In (name, d) DOMProperty.properties ->
  DOMProperty.isReservedProp name loaded = (Normal false, loaded).
Proof.
  intros Hin.
  pose proof registry_disjoint_from_reserved as Hd.
  rewrite forallb_forall in Hd. specialize (Hd (name, d) Hin).
  simpl in Hd. apply negb_true_iff in Hd.
  rewrite isReservedProp_on_table by reflexivity.
  rewrite Hd. reflexivity.
Qed.

Lemma registry_names_are_not_reserved_witness :
  DOMProperty.isReservedProp "value" loaded = (Normal false, loaded).
Proof.
  apply (registry_names_are_not_reserved "value"
           (entry "value" None (Some valueMutationMethod) [])).
  unfold DOMProperty.properties.
  repeat first [ left; reflexivity | right ].
Defined.

(** X20.  Every suggestion of the alias table built at load names a prop
    that exists: either a reserved prop of which the alias is the
    lower-cased form, or a key of the registry whose attribute name is the
    alias. *)
Theorem aliases_point_into_the_tables (alias standardName : string) :
  possibleStandardNames loaded !! alias = Some standardName ->
  (is_Some (DOMProperty.RESERVED_PROPS !! standardName)
   /\ alias = toLowerCase standardName)
  \/ (exists d, In (standardName, d) DOMProperty.properties
                /\ attributeName d = alias).
Proof.
  intros Hlook.
  change (possibleStandardNames loaded) with possibleStandardNames_literal in Hlook.
  apply elem_of_list_to_map_2 in Hlook.
  apply list_elem_of_In in Hlook. simpl in Hlook.
  destruct Hlook as [Heq|[Heq|[Heq|[Heq|[Heq|[]]]]]]; injection Heq as <- <-.
  - left. split; [vm_compute; eauto | reflexivity].
  - right. exists (attr "class" []). split; [|reflexivity].
    unfold DOMProperty.properties. repeat first [ left; reflexivity | right ].
  - right. exists (attr "for" []). split; [|reflexivity].
    unfold DOMProperty.properties. repeat first [ left; reflexivity | right ].
  - right. exists (attr "accept-charset" []). split; [|reflexivity].
    unfold DOMProperty.properties. repeat first [ left; reflexivity | right ].
  - right. exists (attr "http-equiv" []). split; [|reflexivity].
    unfold DOMProperty.properties. repeat first [ left; reflexivity | right ].
Qed.

Lemma aliases_point_into_the_tables_witness :
  (is_Some (DOMProperty.RESERVED_PROPS !! "className")
   /\ "class" = toLowerCase "className")
  \/ (exists d, In ("className", d) DOMProperty.properties
                /\ attributeName d = "class").
Proof.
  apply (aliases_point_into_the_tables "class" "className").
  reflexivity.
Defined.

(** ** The mutation method of [value] *)

Section ValueMutation.

Import DOMNode.

Variable ToString : Value -> string.

Lemma hasAttribute_setAttribute (node : Node) (name value : string) :
  hasAttribute (setAttribute node name value) name = true.
Proof.
  unfold hasAttribute, setAttribute. simpl.
  rewrite lookup_insert_eq. reflexivity.
Qed.

Lemma setAttribute_twice (node : Node) (name value : string) :
  setAttribute (setAttribute node name value) name value
  = setAttribute node name value.
Proof.
  unfold setAttribute. simpl. f_equal. apply insert_insert_eq.
Qed.

Lemma removeAttribute_absent (node : Node) (name : string) :
  attributes node !! name = None -> removeAttribute node name = node.
Proof.
  intros Habs. destruct node as [t a v f]. unfold removeAttribute. simpl in *.
  f_equal. apply delete_id. exact Habs.
Qed.

(** The three outcomes of the mutation method. *)
Lemma valueMutation_outcomes (node : Node) (value : Value) :
  valueMutation ToString node value = node
  \/ valueMutation ToString node value = removeAttribute node "value"
  \/ valueMutation ToString node value
     = setAttribute node "value" (ToString value).
Proof.
  unfold valueMutation.
  destruct value; try (right; left; reflexivity);
    (destruct (negb _ || negb _); [right; right; reflexivity|];
     destruct (validity node) as [v|]; [|left; reflexivity];
     destruct (negb (badInput v) && negb (isActiveElement node));
     [right; right; reflexivity | left; reflexivity]).
Qed.

(** X21.  The mutation method touches nothing but the [value] attribute:
    the node's type, validity and focus are as before, and so is every
    other attribute, whatever the value. *)
Theorem valueMutation_touches_only_value (node : Node) (value : Value) :
  DOMNode.type (valueMutation ToString node value) = DOMNode.type node
  /\ validity (valueMutation ToString node value) = validity node
  /\ isActiveElement (valueMutation ToString node value) = isActiveElement node
  /\ forall name, name <> "value" ->
       attributes (valueMutation ToString node value) !! name
       = attributes node !! name.
Proof.
  destruct (valueMutation_outcomes node value) as [-> | [-> | ->]].
  - repeat split; reflexivity.
  - repeat split; try reflexivity.
    intros name Hne. simpl. apply lookup_delete_ne. congruence.
  - repeat split; try reflexivity.
    intros name Hne. simpl. apply lookup_insert_ne. congruence.
Qed.

(** X22.  For [null] and [undefined] the [value] attribute is removed; a
    node that has none is left exactly as it is. *)
Theorem valueMutation_null_removes_value (node : Node) (value : Value) :
  nullish value ->
  attributes (valueMutation ToString node value) !! "value" = None
  /\ (attributes node !! "value" = None ->
      valueMutation ToString node value = node).
Proof.
  intros [-> | ->]; simpl; split;
    first [ apply lookup_delete_eq | apply removeAttribute_absent ].
Qed.

(** X23.  For any other value the attribute afterwards holds the value
    converted to a string, unless the node is a number input that already
    has a [value] attribute, in which case it may be left untouched. *)
Theorem valueMutation_sets_or_keeps (node : Node) (value : Value) :
  ~ nullish value ->
  attributes (valueMutation ToString node value) !! "value"
    = Some (ToString value)
  \/ (valueMutation ToString node value = node
      /\ DOMNode.type node = Some "number"
      /\ is_Some (attributes node !! "value")).
Proof.
  intros Hnon.
  assert (attributes (setAttribute node "value" (ToString value)) !! "value"
          = Some (ToString value)) as Hset by apply lookup_insert_eq.
  unfold valueMutation.
  destruct value; try (exfalso; apply Hnon; unfold nullish; tauto);
    (destruct (bool_decide (DOMNode.type node = Some "number")) eqn:Htype;
     [ apply bool_decide_eq_true_1 in Htype | left; exact Hset ];
     unfold hasAttribute;
     destruct (bool_decide (is_Some (attributes node !! "value"))) eqn:Hhas;
     [ apply bool_decide_eq_true_1 in Hhas | left; exact Hset ];
     simpl;
     destruct (validity node) as [v|]; [|right; repeat split; assumption];
     destruct (negb (badInput v) && negb (isActiveElement node));
     [ left; exact Hset | right; repeat split; assumption ]).
Qed.

(** X24.  A number input that already has a [value] attribute keeps its
    attributes as they are while it has the focus, while its input is bad,
    or where it has no validity state, whatever non-null value is
    written. *)
Theorem valueMutation_leaves_busy_number_input (node : Node) (value : Value) :
  ~ nullish value ->
  DOMNode.type node = Some "number" ->
  is_Some (attributes node !! "value") ->
  (isActiveElement node = true
   \/ validity node = None
   \/ validity node = Some {| badInput := true |}) ->
  valueMutation ToString node value = node.
Proof.
  intros Hnon Htype Hhas Hbusy.
  unfold valueMutation, hasAttribute.
  rewrite (bool_decide_eq_true_2 _ Htype), (bool_decide_eq_true_2 _ Hhas).
  simpl.
  destruct value; try (exfalso; apply Hnon; unfold nullish; tauto);
    (destruct Hbusy as [Hactive | [Hnone | Hbad]];
     [ rewrite Hactive; destruct (validity node) as [[bad]|]; simpl;
       rewrite ?andb_false_r; reflexivity
     | rewrite Hnone; reflexivity
     | rewrite Hbad; reflexivity ]).
Qed.

Lemma valueMutation_outcomes_value (node : Node) (value : Value) :
  ~ nullish value ->
  valueMutation ToString node value = node
  \/ valueMutation ToString node value
     = setAttribute node "value" (ToString value).
Proof.
  intros Hnon. unfold valueMutation.
  destruct value; try (exfalso; apply Hnon; unfold nullish; tauto);
    (destruct (negb _ || negb _); [right; reflexivity|];
     destruct (validity node) as [v|]; [|left; reflexivity];
     destruct (negb (badInput v) && negb (isActiveElement node));
     [right; reflexivity | left; reflexivity]).
Qed.

Lemma valueMutation_after_set (node : Node) (value : Value) :
  ~ nullish value ->
  valueMutation ToString (setAttribute node "value" (ToString value)) value
  = setAttribute node "value" (ToString value).
Proof.
  intros Hnon.
  destruct (valueMutation_outcomes_value
              (setAttribute node "value" (ToString value)) value Hnon)
    as [-> | ->]; [reflexivity | apply setAttribute_twice].
Qed.

(** X25.  Writing the same value twice is the same as writing it once. *)
Theorem valueMutation_idempotent (node : Node) (value : Value) :
  valueMutation ToString (valueMutation ToString node value) value
  = valueMutation ToString node value.
Proof.
  assert (nullish value \/ ~ nullish value) as [Hnull | Hnon].
  { unfold nullish. destruct value; first [left; tauto | right; intros [H|H]; discriminate H]. }
  - destruct Hnull as [-> | ->]; simpl;
      apply removeAttribute_absent; simpl; apply lookup_delete_eq.
  - destruct (valueMutation_outcomes_value node value Hnon) as [Hsame | Hset].
    + rewrite Hsame. exact Hsame.
    + rewrite Hset. apply valueMutation_after_set. exact Hnon.
Qed.

End ValueMutation.

Lemma valueMutation_null_removes_value_witness :
  DOMNode.attributes
    (DOMNode.valueMutation (fun _ => "")
       {| DOMNode.type := Some "text";
          DOMNode.attributes := {[ "value" := "old" ]};
          DOMNode.validity := None;
          DOMNode.isActiveElement := false |} Null) !! "value" = None
  /\ DOMNode.valueMutation (fun _ => "")
       {| DOMNode.type := None;
          DOMNode.attributes := {[ "id" := "a" ]};
          DOMNode.validity := None;
          DOMNode.isActiveElement := false |} Undefined
     = {| DOMNode.type := None;
          DOMNode.attributes := {[ "id" := "a" ]};
          DOMNode.validity := None;
          DOMNode.isActiveElement := false |}.
Proof.
  split.
  - apply (valueMutation_null_removes_value (fun _ => "")
             {| DOMNode.type := Some "text";
                DOMNode.attributes := {[ "value" := "old" ]};
                DOMNode.validity := None;
                DOMNode.isActiveElement := false |} Null).
    right. reflexivity.
  - apply (valueMutation_null_removes_value (fun _ => "")
             {| DOMNode.type := None;
                DOMNode.attributes := {[ "id" := "a" ]};
                DOMNode.validity := None;
                DOMNode.isActiveElement := false |} Undefined).
    + left. reflexivity.
    + reflexivity.
Defined.

Lemma valueMutation_sets_or_keeps_witness :
  DOMNode.attributes
    (DOMNode.valueMutation (fun v => match v with Str s => s | _ => "" end)
       {| DOMNode.type := Some "text";
          DOMNode.attributes := ∅;
          DOMNode.validity := None;
          DOMNode.isActiveElement := true |} (Str "abc")) !! "value"
  = Some "abc"
  \/ (DOMNode.valueMutation (fun v => match v with Str s => s | _ => "" end)
        {| DOMNode.type := Some "text";
           DOMNode.attributes := ∅;
           DOMNode.validity := None;
           DOMNode.isActiveElement := true |} (Str "abc")
      = {| DOMNode.type := Some "text";
           DOMNode.attributes := ∅;
           DOMNode.validity := None;
           DOMNode.isActiveElement := true |}
      /\ Some "text" = Some "number"
      /\ is_Some ((∅ : gmap string string) !! "value")).
Proof.
  apply (valueMutation_sets_or_keeps
           (fun v => match v with Str s => s | _ => "" end)
           {| DOMNode.type := Some "text";
              DOMNode.attributes := ∅;
              DOMNode.validity := None;
              DOMNode.isActiveElement := true |} (Str "abc")).
  intros [H|H]; discriminate H.
Defined.

Lemma valueMutation_leaves_busy_number_input_witness :
  DOMNode.valueMutation (fun v => match v with Str s => s | _ => "" end)
    {| DOMNode.type := Some "number";
       DOMNode.attributes := {[ "value" := "1." ]};
       DOMNode.validity := Some {| DOMNode.badInput := false |};
       DOMNode.isActiveElement := true |} (Str "1")
  = {| DOMNode.type := Some "number";
       DOMNode.attributes := {[ "value" := "1." ]};
       DOMNode.validity := Some {| DOMNode.badInput := false |};
       DOMNode.isActiveElement := true |}.
Proof.
  apply (valueMutation_leaves_busy_number_input
           (fun v => match v with Str s => s | _ => "" end)).
  - intros [H|H]; discriminate H.
  - reflexivity.
  - simpl. rewrite lookup_singleton_eq. eauto.
  - left. reflexivity.
Defined.

